(** * Live-data synchronisation of the crypto price tracker

    A shallow embedding of the Redux slice (store/crypto-slice.ts) and of the
    streaming client (services/mock-socket.ts), with the properties of the
    merge reducer, of the symbol registry and of the connection life cycle.

    JavaScript numbers are IEEE 754 binary64 values, modelled by Rocq's
    primitive floats.  Arrays are lists, the [Map] of the service is a
    [gmap], optional properties are [option]s, and exceptions are explicit
    completions. *)

From Stdlib Require Import ZArith String Ascii List Bool Lia.
From Stdlib Require Import Floats.PrimFloat Floats.SpecFloat Floats.FloatOps.
From Stdlib Require Import Floats.FloatAxioms.
From stdpp Require Import base option list gmap strings.

Local Open Scope string_scope.
Local Open Scope list_scope.
Local Open Scope Z_scope.

Set Warnings "-register-all".

(** ** JavaScript numbers *)

Module Number.

Definition t : Set := float.

(** ToBoolean on a number: [+0], [-0] and [NaN] are falsy. *)
Definition ToBoolean (x : t) : bool :=
  negb (PrimFloat.is_zero x || PrimFloat.is_nan x).

End Number.

(** ** services/crypto-data.ts: the asset record *)

Module CryptoAsset.

Record t : Set := mk {
  id : string;
  name : string;
  symbol : string;
  logo : string;
  price : Number.t;
  percentChange1h : Number.t;
  percentChange24h : Number.t;
  percentChange7d : Number.t;
  marketCap : Number.t;
  volume24h : Number.t;
  circulatingSupply : Number.t;
  maxSupply : option Number.t;          (* number | null *)
  sparkline7d : list Number.t
}.

End CryptoAsset.

(** ** store/crypto-slice.ts *)

(** [AssetUpdatePayload]: every property but [id] is optional; [None] is
    an absent property (the one producer of events in the repository,
    [handleMessage], writes numbers under the properties it sets). *)
Module AssetUpdatePayload.

Record t : Set := mk {
  id : string;
  price : option Number.t;
  percentChange1h : option Number.t;
  percentChange24h : option Number.t;
  percentChange7d : option Number.t;
  volume24h : option Number.t;
  sparkline7d : option (list Number.t)
}.

End AssetUpdatePayload.

Module CryptoSlice.

Inductive Status : Set := idle | loading | succeeded | failed.

(** [error: string | null | undefined] *)
Inductive ErrorField : Set :=
| error_null
| error_undefined
| error_message (msg : string).

Record CryptoState : Set := mkState {
  assets : list CryptoAsset.t;
  status : Status;
  error : ErrorField
}.

Definition initialState : CryptoState :=
  {| assets := []; status := idle; error := error_null |}.

(** [Array.prototype.findIndex]: the index of the first element that
    satisfies the predicate, [-1] when there is none. *)
Fixpoint findIndex {A : Type} (p : A -> bool) (l : list A) : Z :=
  match l with
  | [] => -1
  | x :: rest =>
      if p x then 0
      else let i := findIndex p rest in
           if i =? -1 then -1 else i + 1
  end.

(** The object spread [{ ...asset, ...payload }]: the properties present
    in the payload override those of the asset, the others are kept. *)
Definition spread (asset : CryptoAsset.t) (payload : AssetUpdatePayload.t)
  : CryptoAsset.t :=
  {| CryptoAsset.id := AssetUpdatePayload.id payload;
     CryptoAsset.name := CryptoAsset.name asset;
     CryptoAsset.symbol := CryptoAsset.symbol asset;
     CryptoAsset.logo := CryptoAsset.logo asset;
     CryptoAsset.price :=
       default (CryptoAsset.price asset) (AssetUpdatePayload.price payload);
     CryptoAsset.percentChange1h :=
       default (CryptoAsset.percentChange1h asset)
               (AssetUpdatePayload.percentChange1h payload);
     CryptoAsset.percentChange24h :=
       default (CryptoAsset.percentChange24h asset)
               (AssetUpdatePayload.percentChange24h payload);
     CryptoAsset.percentChange7d :=
       default (CryptoAsset.percentChange7d asset)
               (AssetUpdatePayload.percentChange7d payload);
     CryptoAsset.marketCap := CryptoAsset.marketCap asset;
     CryptoAsset.volume24h :=
       default (CryptoAsset.volume24h asset)
               (AssetUpdatePayload.volume24h payload);
     CryptoAsset.circulatingSupply := CryptoAsset.circulatingSupply asset;
     CryptoAsset.maxSupply := CryptoAsset.maxSupply asset;
     CryptoAsset.sparkline7d :=
       default (CryptoAsset.sparkline7d asset)
               (AssetUpdatePayload.sparkline7d payload) |}.

(** [{ ...asset, ...payload, sparkline7d: newSparkline }] *)
Definition spread_with_sparkline (asset : CryptoAsset.t)
    (payload : AssetUpdatePayload.t) (newSparkline : list Number.t)
  : CryptoAsset.t :=
  let merged := spread asset payload in
  {| CryptoAsset.id := CryptoAsset.id merged;
     CryptoAsset.name := CryptoAsset.name merged;
     CryptoAsset.symbol := CryptoAsset.symbol merged;
     CryptoAsset.logo := CryptoAsset.logo merged;
     CryptoAsset.price := CryptoAsset.price merged;
     CryptoAsset.percentChange1h := CryptoAsset.percentChange1h merged;
     CryptoAsset.percentChange24h := CryptoAsset.percentChange24h merged;
     CryptoAsset.percentChange7d := CryptoAsset.percentChange7d merged;
     CryptoAsset.marketCap := CryptoAsset.marketCap merged;
     CryptoAsset.volume24h := CryptoAsset.volume24h merged;
     CryptoAsset.circulatingSupply := CryptoAsset.circulatingSupply merged;
     CryptoAsset.maxSupply := CryptoAsset.maxSupply merged;
     CryptoAsset.sparkline7d := newSparkline |}.

Definition set_assets (state : CryptoState) (l : list CryptoAsset.t)
  : CryptoState :=
  {| assets := l; status := status state; error := error state |}.

(** The [updateAsset] reducer.  The guard
    [action.payload.price && !action.payload.sparkline7d] holds when the
    price is present and truthy and the sparkline property is absent (an
    array, even an empty one, is truthy). *)
Definition updateAsset (state : CryptoState) (payload : AssetUpdatePayload.t)
  : CryptoState :=
  let assetIndex :=
    findIndex (fun asset =>
                 String.eqb (CryptoAsset.id asset) (AssetUpdatePayload.id payload))
              (assets state) in
  if negb (assetIndex =? -1) then
    match assets state !! Z.to_nat assetIndex with
    | Some current =>
        match AssetUpdatePayload.price payload,
              AssetUpdatePayload.sparkline7d payload with
        | Some p, None =>
            if Number.ToBoolean p then
              let currentSparkline := CryptoAsset.sparkline7d current in
              let newSparkline := drop 1 currentSparkline ++ [p] in
              set_assets state
                (<[Z.to_nat assetIndex :=
                     spread_with_sparkline current payload newSparkline]>
                   (assets state))
            else
              set_assets state
                (<[Z.to_nat assetIndex := spread current payload]> (assets state))
        | _, _ =>
            (* Standard update without modifying sparkline *)
            set_assets state
              (<[Z.to_nat assetIndex := spread current payload]> (assets state))
        end
    | None => state
    end
  else state.

(** The asset the reducer selects: the first one of the collection that
    carries the id of the event. *)
Definition matched (payload : AssetUpdatePayload.t) (state : CryptoState)
    (i : nat) (asset : CryptoAsset.t) : Prop :=
  assets state !! i = Some asset
  /\ CryptoAsset.id asset = AssetUpdatePayload.id payload
  /\ forall j other, (j < i)%nat -> assets state !! j = Some other ->
       CryptoAsset.id other <> AssetUpdatePayload.id payload.

(** What the reducer stores in place of the selected asset. *)
Definition merge_asset (asset : CryptoAsset.t)
    (payload : AssetUpdatePayload.t) : CryptoAsset.t :=
  match AssetUpdatePayload.price payload,
        AssetUpdatePayload.sparkline7d payload with
  | Some p, None =>
      if Number.ToBoolean p
      then spread_with_sparkline asset payload
             (drop 1 (CryptoAsset.sparkline7d asset) ++ [p])
      else spread asset payload
  | _, _ => spread asset payload
  end.

End CryptoSlice.

(** ** JavaScript values, exceptions and the built-ins the service calls *)

Module JS.

Inductive Error : Set := SyntaxError | TypeError.

(** The outcome of evaluating a piece of code: a value, or a thrown
    exception. *)
Inductive completion (A : Type) : Type :=
| Normal (a : A)
| Throw (e : Error).
Arguments Normal {A} a.
Arguments Throw {A} e.

Definition bind {A B : Type} (c : completion A) (k : A -> completion B)
  : completion B :=
  match c with
  | Normal a => k a
  | Throw e => Throw e
  end.

(** The values [JSON.parse] produces.  The members of an object are in
    the order of the text; a name that occurs twice denotes its last
    value. *)
Inductive value : Set :=
| Null
| Bool (b : bool)
| Num (x : Number.t)
| Str (s : string)
| Arr (items : list value)
| Obj (members : list (string * value)).

Fixpoint lookup_member (k : string) (members : list (string * value))
  : option value :=
  match members with
  | [] => None
  | (k', v) :: rest =>
      match lookup_member k rest with
      | Some v' => Some v'
      | None => if String.eqb k k' then Some v else None
      end
  end.

(** ToBoolean; [None] is [undefined]. *)
Definition ToBoolean (v : option value) : bool :=
  match v with
  | None => false
  | Some Null => false
  | Some (Bool b) => b
  | Some (Num x) => Number.ToBoolean x
  | Some (Str s) => negb (String.eqb s "")
  | Some (Arr _) => true
  | Some (Obj _) => true
  end.

(** The property access [v.k], for the names the service reads ([data],
    [e], [s], [c], [P], [q]), none of which is defined on a prototype:
    [undefined] and [null] have no properties, an object answers with its
    own member, every other value with [undefined]. *)
Definition get (v : option value) (k : string) : completion (option value) :=
  match v with
  | None => Throw TypeError
  | Some Null => Throw TypeError
  | Some (Obj members) => Normal (lookup_member k members)
  | Some _ => Normal None
  end.

(** [v === s] for a string literal [s]. *)
Definition strict_eq_string (v : option value) (s : string) : bool :=
  match v with
  | Some (Str s') => String.eqb s' s
  | _ => false
  end.

(** The built-ins of the host.  They are left open: the case mappings
    follow Unicode, [JSON.parse] and [parseFloat] the ECMAScript
    grammar, and the [WebSocket] constructor rejects some URLs.
    [parseFloat_nonstring] is [parseFloat] on an argument that is not a
    string (it converts the argument to a string first, which can
    throw). *)
Class Platform : Type := {
  toUpperCase : string -> string;
  toLowerCase : string -> string;
  JSON_parse : string -> completion value;
  parseFloat_string : string -> Number.t;
  parseFloat_nonstring : option value -> completion Number.t;
  (** [None] when [new WebSocket(url)] returns, [Some e] when it throws *)
  WebSocket_construct : string -> option Error
}.

Definition parseFloat {host : Platform} (v : option value) : completion Number.t :=
  match v with
  | Some (Str s) => Normal (parseFloat_string s)
  | _ => parseFloat_nonstring v
  end.

End JS.

#[export] Instance completion_bind : MBind JS.completion :=
  fun A B k c => JS.bind c k.

(** ** services/mock-socket.ts *)

Module MockSocket.

Import JS CryptoSlice.

Definition BINANCE_WS_URL : string := "wss://stream.binance.com:9443/stream".

(** A transport, as far as the service touches it: each handler slot
    holds the handler of the service for that event ([true]) or [null]
    ([false]); [closeCalled] records the arguments of [close]. *)
Record WebSocket : Set := mkWebSocket {
  url : string;
  onopen : bool;
  onmessage : bool;
  onerror : bool;
  onclose : bool;
  closeCalled : option (Z * string)
}.

Record CloseEvent : Set := mkCloseEvent {
  code : Z;
  reason : string;
  wasClean : bool
}.

(** The one callback the service hands to [setTimeout]:
    [() => this.start(this.initialAssets)]. *)
Inductive Callback : Set := reconnect.

Record Timer : Set := mkTimer {
  callback : Callback;
  delay : Z                                   (* milliseconds *)
}.

Inductive Level : Set := log | warn | error.

(** The service instance ([ws], [initialAssets], [symbolToIdMap]) with
    the part of the world it acts on: the transports created so far, the
    pending timers, the Redux store behind [dispatch] with the actions
    dispatched so far, and the console. *)
Record World : Type := mkWorld {
  ws : option nat;
  initialAssets : list CryptoAsset.t;
  symbolToIdMap : gmap string string;
  sockets : list WebSocket;
  timers : list Timer;
  store : CryptoState;
  dispatched : list AssetUpdatePayload.t;
  console : list (Level * string)
}.

Definition set_ws (h : option nat) (w : World) : World :=
  mkWorld h (initialAssets w) (symbolToIdMap w) (sockets w) (timers w)
          (store w) (dispatched w) (console w).

Definition set_initialAssets (l : list CryptoAsset.t) (w : World) : World :=
  mkWorld (ws w) l (symbolToIdMap w) (sockets w) (timers w)
          (store w) (dispatched w) (console w).

Definition set_symbolToIdMap (m : gmap string string) (w : World) : World :=
  mkWorld (ws w) (initialAssets w) m (sockets w) (timers w)
          (store w) (dispatched w) (console w).

Definition set_sockets (l : list WebSocket) (w : World) : World :=
  mkWorld (ws w) (initialAssets w) (symbolToIdMap w) l (timers w)
          (store w) (dispatched w) (console w).

Definition set_timers (l : list Timer) (w : World) : World :=
  mkWorld (ws w) (initialAssets w) (symbolToIdMap w) (sockets w) l
          (store w) (dispatched w) (console w).

Definition print (lvl : Level) (msg : string) (w : World) : World :=
  mkWorld (ws w) (initialAssets w) (symbolToIdMap w) (sockets w) (timers w)
          (store w) (dispatched w) (console w ++ [(lvl, msg)]).

(** [this.dispatch(updateAsset(payload))]: the store runs the reducer. *)
Definition dispatch (payload : AssetUpdatePayload.t) (w : World) : World :=
  mkWorld (ws w) (initialAssets w) (symbolToIdMap w) (sockets w) (timers w)
          (updateAsset (store w) payload) (dispatched w ++ [payload])
          (console w).

(** [setTimeout(cb, ms)] *)
Definition setTimeout (cb : Callback) (ms : Z) (w : World) : World :=
  set_timers (timers w ++ [mkTimer cb ms]) w.

Definition update_socket (i : nat) (f : WebSocket -> WebSocket) (w : World)
  : World :=
  match sockets w !! i with
  | Some s => set_sockets (<[i := f s]> (sockets w)) w
  | None => w
  end.

Definition detach_open_message_error (s : WebSocket) : WebSocket :=
  mkWebSocket (url s) false false false (onclose s) (closeCalled s).

Definition detach_close (s : WebSocket) : WebSocket :=
  mkWebSocket (url s) (onopen s) (onmessage s) (onerror s) false
              (closeCalled s).

Definition close (c : Z) (r : string) (s : WebSocket) : WebSocket :=
  mkWebSocket (url s) (onopen s) (onmessage s) (onerror s) (onclose s)
              (Some (c, r)).

Section Service.

Context {host : Platform}.

Definition mapBinanceSymbolToAssetId (binanceSymbol : option value)
    (w : World) : completion (option string) :=
  match binanceSymbol with
  | Some (Str s) => Normal (symbolToIdMap w !! toUpperCase s)
  | _ => Throw TypeError       (* no callable [toUpperCase] *)
  end.

(** The body of the [try] block of [handleMessage].  The guard
    [if (!assetId) return] leaves on [undefined] and on the empty
    string, the two falsy values of [string | undefined]. *)
Definition handleMessage_try (data : string) (w : World) : completion World :=
  message ← JSON_parse data;
  message_data ← get (Some message) "data";
  if ToBoolean message_data then
    e ← get message_data "e";
    if strict_eq_string e "24hrTicker" then
      s ← get message_data "s";
      assetId ← mapBinanceSymbolToAssetId s w;
      match assetId with
      | None => Normal w                (* [!undefined] *)
      | Some assetId' =>
          if String.eqb assetId' "" then Normal w    (* [!""] *)
          else
            c ← get message_data "c";
            price ← parseFloat c;
            P ← get message_data "P";
            percentChange24h ← parseFloat P;
            q ← get message_data "q";
            volume24h ← parseFloat q;
            let updatePayload :=
              {| AssetUpdatePayload.id := assetId';
                 AssetUpdatePayload.price := Some price;
                 AssetUpdatePayload.percentChange1h := None;
                 AssetUpdatePayload.percentChange24h := Some percentChange24h;
                 AssetUpdatePayload.percentChange7d := None;
                 AssetUpdatePayload.volume24h := Some volume24h;
                 AssetUpdatePayload.sparkline7d := None |} in
            Normal (dispatch updatePayload w)
      end
    else Normal w
  else Normal w.

Definition handleMessage (data : string) (w : World) : completion World :=
  match handleMessage_try data w with
  | Normal w' => Normal w'
  | Throw _ => Normal (print error "Error processing WebSocket message:" w)
  end.

Definition handleError (isErrorEvent : bool) (w : World) : World :=
  if isErrorEvent then print error "WebSocket ErrorEvent:" w
  else print error "WebSocket generic Event:" w.

Definition stop (w : World) : World :=
  let w :=
    match ws w with
    | Some tempWs =>
        let w := update_socket tempWs detach_open_message_error w in
        let w := set_ws None w in
        let w := update_socket tempWs detach_close w in
        let w := update_socket tempWs (close 1000 "Client called stop") w in
        print log "Binance WebSocket connection stopped intentionally." w
    | None => w
    end in
  set_initialAssets [] w.

(** The callback of [assets.map] in [start]: its effect on the map and
    the string it returns. *)
Definition register (m : gmap string string) (asset : CryptoAsset.t)
  : gmap string string :=
  let binanceSymbol := toUpperCase (CryptoAsset.symbol asset +:+ "USDT") in
  <[binanceSymbol := CryptoAsset.id asset]> m.

Definition streamName (asset : CryptoAsset.t) : string :=
  toLowerCase (CryptoAsset.symbol asset) +:+ "usdt@ticker".

Definition start (assets : list CryptoAsset.t) (w : World) : World :=
  let w := match ws w with Some _ => stop w | None => w end in
  if (Z.of_nat (length assets) =? 0) then
    print warn
      "No assets provided to BinanceWebSocketService. WebSocket connection not started."
      w
  else
    let w := set_initialAssets assets w in
    let w := set_symbolToIdMap ∅ w in
    let w := set_symbolToIdMap (foldl register (symbolToIdMap w) assets) w in
    let streams :=
      String.concat "/"
        (List.filter (fun stream => negb (String.eqb stream ""))
                     (map streamName assets)) in
    if String.eqb streams "" then
      print warn
        "No valid streams to subscribe to. WebSocket connection not started."
        w
    else
      let url := BINANCE_WS_URL +:+ "?streams=" +:+ streams in
      let w := print log ("Connecting to Binance WebSocket: " +:+ url) w in
      match WebSocket_construct url with
      | None =>
          let handle := length (sockets w) in
          let w := set_sockets
                     (sockets w ++ [mkWebSocket url true true true true None])
                     w in
          set_ws (Some handle) w
      | Some _ => print error "Failed to create WebSocket:" w
      end.

Definition handleClose (event : CloseEvent) (w : World) : World :=
  let w := print log "WebSocket connection closed. Code:" w in
  let w := set_ws None w in
  (* Auto-reconnect on unclean close *)
  if (0 <? Z.of_nat (length (initialAssets w))) && negb (wasClean event) then
    let w := print log "Attempting to reconnect in 5 seconds..." w in
    setTimeout reconnect 5000 w
  else w.

(** Running a timer callback: [this.start(this.initialAssets)], the
    argument being read when the callback runs. *)
Definition run_callback (cb : Callback) (w : World) : World :=
  match cb with
  | reconnect => start (initialAssets w) w
  end.

(** What the event loop can deliver to the service: the expiry of a
    pending timer, or an event of a transport, which runs the handler
    in the slot when there is one. *)
Inductive Event : Set :=
| timer_fires (k : nat)
| socket_open (i : nat)
| socket_message (i : nat) (data : string)
| socket_error (i : nat) (isErrorEvent : bool)
| socket_close (i : nat) (event : CloseEvent).

Definition step (ev : Event) (w : World) : World :=
  match ev with
  | timer_fires k =>
      match timers w !! k with
      | Some t => run_callback (callback t) (set_timers (delete k (timers w)) w)
      | None => w
      end
  | socket_open i =>
      match sockets w !! i with
      | Some s =>
          if onopen s
          then print log "Binance WebSocket connection established." w
          else w
      | None => w
      end
  | socket_message i data =>
      match sockets w !! i with
      | Some s =>
          if onmessage s then
            match handleMessage data w with
            | Normal w' => w'
            | Throw _ => print error "Uncaught" w
            end
          else w
      | None => w
      end
  | socket_error i isErrorEvent =>
      match sockets w !! i with
      | Some s => if onerror s then handleError isErrorEvent w else w
      | None => w
      end
  | socket_close i event =>
      match sockets w !! i with
      | Some s => if onclose s then handleClose event w else w
      | None => w
      end
  end.


(** [message] is a ticker frame of payload [payload]: an object whose
    [data] is an object whose [e] is the string [24hrTicker]. *)
Definition ticker (message : value) (payload : list (string * value)) : Prop :=
  exists members,
    message = Obj members
    /\ lookup_member "data" members = Some (Obj payload)
    /\ lookup_member "e" payload = Some (Str "24hrTicker").

(** The symbol [s] of the payload is a string that the registry of [w]
    maps to [assetId]. *)
Definition resolves (w : World) (payload : list (string * value))
    (assetId : string) : Prop :=
  exists sym,
    lookup_member "s" payload = Some (Str sym)
    /\ symbolToIdMap w !! toUpperCase sym = Some assetId.

(** The key under which [start] registers an asset. *)
Definition registryKey (asset : CryptoAsset.t) : string :=
  toUpperCase (CryptoAsset.symbol asset +:+ "USDT").

(** The event that [handleMessage] builds. *)
Definition tickerUpdate (assetId : string) (price percentChange24h volume24h : Number.t)
  : AssetUpdatePayload.t :=
  {| AssetUpdatePayload.id := assetId;
     AssetUpdatePayload.price := Some price;
     AssetUpdatePayload.percentChange1h := None;
     AssetUpdatePayload.percentChange24h := Some percentChange24h;
     AssetUpdatePayload.percentChange7d := None;
     AssetUpdatePayload.volume24h := Some volume24h;
     AssetUpdatePayload.sparkline7d := None |}.

End Service.

(** The world after the [catch] block of [handleMessage]. *)
Definition swallowed (w : World) : World :=
  print error "Error processing WebSocket message:" w.

(** The service holds no transport and no asset list. *)
Definition idle_service (w : World) : Prop :=
  ws w = None /\ initialAssets w = [].

(** [new BinanceWebSocketService(dispatch)], in a world with no transport
    and no timer, whose store is [s]. *)
Definition fresh (s : CryptoState) : World :=
  mkWorld None [] ∅ [] [] s [] [].

End MockSocket.

(** ** A host for ASCII text

    An executable instance of the built-ins, after ECMAScript, for strings
    of ASCII characters: the case mappings change the letters [a]-[z] and
    [A]-[Z] only, white space is the ASCII white space, and a string that
    [JSON.parse] builds from [\u] escapes is encoded in UTF-8. *)

Module Host.

Import JS.

Definition code (c : ascii) : Z := Z.of_N (N_of_ascii c).

Definition chr (n : Z) : ascii := ascii_of_N (Z.to_N n).

Fixpoint map_chars (f : ascii -> ascii) (s : string) : string :=
  match s with
  | EmptyString => EmptyString
  | String c rest => String (f c) (map_chars f rest)
  end.

Definition upper_char (c : ascii) : ascii :=
  if (97 <=? code c) && (code c <=? 122) then chr (code c - 32) else c.

Definition lower_char (c : ascii) : ascii :=
  if (65 <=? code c) && (code c <=? 90) then chr (code c + 32) else c.

Definition is_digit (c : ascii) : bool := (48 <=? code c) && (code c <=? 57).

(** *** Decimal numerals to binary64 *)

(** [n / d] rounded to the nearest binary64, ties to even, for [0 <= n]
    and [0 < d].  The quotient is taken with at least 64 significant
    bits and a sticky bit below them, so the final rounding to 53 bits
    is that of the exact ratio. *)
Definition round_ratio (n d : Z) : Number.t :=
  if n =? 0 then PrimFloat.zero
  else
    let s := Z.max 0 (64 + Z.log2 d - Z.log2 n) in
    let '(q, r) := Z.div_eucl (Z.shiftl n s) d in
    let sticky := if r =? 0 then 0 else 1 in
    SF2Prim (binary_normalize prec emax (2 * q + sticky) (- s - 1) false).

(** The binary64 nearest to [m * 10 ^ e], for [0 <= m].  Beyond the
    range of binary64 the result is known without the division. *)
Definition decimal (m e : Z) : Number.t :=
  if m =? 0 then PrimFloat.zero
  else if 400 <=? e then PrimFloat.infinity
  else if Z.log2 m + 1 + 3 * e <=? -1100 then PrimFloat.zero
  else if 0 <=? e then round_ratio (m * 10 ^ e) 1
  else round_ratio m (10 ^ (- e)).

(** The decimal digits that start [s]: their value on top of [acc],
    their number on top of [n], and the rest of [s]. *)
Fixpoint digits (s : string) (acc n : Z) : Z * Z * string :=
  match s with
  | String c rest =>
      if is_digit c then digits rest (10 * acc + (code c - 48)) (n + 1)
      else (acc, n, s)
  | EmptyString => (acc, n, s)
  end.

Definition sign (s : string) (plus : bool) : bool * string :=
  match s with
  | String "-"%char rest => (true, rest)
  | String "+"%char rest => if plus then (false, rest) else (false, s)
  | _ => (false, s)
  end.

(** *** [parseFloat] on a string *)

Definition is_StrWhiteSpaceChar (c : ascii) : bool :=
  ((9 <=? code c) && (code c <=? 13)) || (code c =? 32).

Fixpoint trim_start (s : string) : string :=
  match s with
  | String c rest => if is_StrWhiteSpaceChar c then trim_start rest else s
  | EmptyString => s
  end.

(** The value of the ExponentPart that starts [s]; [0] when [s] does
    not start with one. *)
Definition exponent_prefix (s : string) : Z :=
  match s with
  | String c rest =>
      if (code c =? 101) || (code c =? 69) then
        let '(neg, rest') := sign rest true in
        let '(v, n, _) := digits rest' 0 0 in
        if n =? 0 then 0 else if neg then - v else v
      else 0
  | EmptyString => 0
  end.

(** The longest prefix of [s] that is a StrUnsignedDecimalLiteral other
    than [Infinity], as a mantissa and a power of ten. *)
Definition unsigned_decimal_prefix (s : string) : option (Z * Z) :=
  let '(i, ni, rest) := digits s 0 0 in
  match rest with
  | String "."%char rest' =>
      let '(m, nf, rest'') := digits rest' i 0 in
      if (ni =? 0) && (nf =? 0) then None
      else Some (m, exponent_prefix rest'' - nf)
  | _ => if ni =? 0 then None else Some (i, exponent_prefix rest)
  end.

Definition parseFloat_string (inputString : string) : Number.t :=
  let trimmedString := trim_start inputString in
  let '(neg, unsigned) := sign trimmedString true in
  let magnitude :=
    if String.prefix "Infinity" unsigned then Some PrimFloat.infinity
    else
      match unsigned_decimal_prefix unsigned with
      | Some (m, e) => Some (decimal m e)
      | None => None
      end in
  match magnitude with
  | Some x => if neg then PrimFloat.opp x else x
  | None => PrimFloat.nan
  end.

(** *** [parseFloat] on a value that is not a string

    The argument is converted to a string first.  That throws on an
    object with a member [toString] (a JSON value is not callable, and
    the inherited [valueOf] returns the object), and on an array with
    such an element.  Otherwise the string starts with a numeral only
    for a number, where [parseFloat] recovers the number but for the
    sign of zero, and for an array, whose string starts with that of
    its first element ([null] giving the empty string). *)
Fixpoint ToString_throws (v : value) : bool :=
  match v with
  | Obj members =>
      match lookup_member "toString" members with
      | Some _ => true
      | None => false
      end
  | Arr items => existsb ToString_throws items
  | _ => false
  end.

Fixpoint parseFloat_ToString (v : value) : Number.t :=
  match v with
  | Num x => if PrimFloat.is_zero x then PrimFloat.zero else x
  | Str s => parseFloat_string s
  | Arr (first :: _) => parseFloat_ToString first
  | _ => PrimFloat.nan
  end.

Definition parseFloat_nonstring (v : option value) : completion Number.t :=
  match v with
  | None => Normal PrimFloat.nan
  | Some v' =>
      if ToString_throws v' then Throw TypeError
      else Normal (parseFloat_ToString v')
  end.

(** *** [JSON.parse] *)

Definition is_json_ws (c : ascii) : bool :=
  (code c =? 32) || (code c =? 9) || (code c =? 10) || (code c =? 13).

Fixpoint skip_ws (s : string) : string :=
  match s with
  | String c rest => if is_json_ws c then skip_ws rest else s
  | EmptyString => s
  end.

(** The rest of [s] after the literal [lit]. *)
Fixpoint strip (lit s : string) : option string :=
  match lit, s with
  | EmptyString, _ => Some s
  | String a lit', String b s' => if Ascii.eqb a b then strip lit' s' else None
  | String _ _, EmptyString => None
  end.

Definition hex_digit (c : ascii) : option Z :=
  if is_digit c then Some (code c - 48)
  else if (97 <=? code c) && (code c <=? 102) then Some (code c - 87)
  else if (65 <=? code c) && (code c <=? 70) then Some (code c - 55)
  else None.

Definition hex4 (a b c d : ascii) : option Z :=
  match hex_digit a, hex_digit b, hex_digit c, hex_digit d with
  | Some x, Some y, Some z, Some t => Some (((x * 16 + y) * 16 + z) * 16 + t)
  | _, _, _, _ => None
  end.

Definition utf8 (cp : Z) (tail : string) : string :=
  let cont (n : Z) := chr (128 + Z.land n 63) in
  if cp <? 128 then String (chr cp) tail
  else if cp <? 2048 then
    String (chr (192 + Z.shiftr cp 6)) (String (cont cp) tail)
  else if cp <? 65536 then
    String (chr (224 + Z.shiftr cp 12))
      (String (cont (Z.shiftr cp 6)) (String (cont cp) tail))
  else
    String (chr (240 + Z.shiftr cp 18))
      (String (cont (Z.shiftr cp 12))
         (String (cont (Z.shiftr cp 6)) (String (cont cp) tail))).

(** The characters of a string literal, after its opening quote, and
    the text after its closing quote.  A pair of [\u] escapes for a high
    and a low surrogate is one code point. *)
Fixpoint string_body (s : string) : option (string * string) :=
  match s with
  | EmptyString => None
  | String c rest =>
      if code c =? 34 then Some (EmptyString, rest)
      else if code c <? 32 then None
      else if code c =? 92 then
        match rest with
        | String e rest1 =>
            let simple (n : Z) :=
              match string_body rest1 with
              | Some (chars, after) => Some (String (chr n) chars, after)
              | None => None
              end in
            if code e =? 34 then simple 34
            else if code e =? 92 then simple 92
            else if code e =? 47 then simple 47
            else if code e =? 98 then simple 8
            else if code e =? 102 then simple 12
            else if code e =? 110 then simple 10
            else if code e =? 114 then simple 13
            else if code e =? 116 then simple 9
            else if code e =? 117 then
              match rest1 with
              | String h1 (String h2 (String h3 (String h4 rest2))) =>
                  match hex4 h1 h2 h3 h4 with
                  | Some hi =>
                      let single :=
                        match string_body rest2 with
                        | Some (chars, after) => Some (utf8 hi chars, after)
                        | None => None
                        end in
                      if (55296 <=? hi) && (hi <=? 56319) then
                        match rest2 with
                        | String b (String u (String l1 (String l2
                            (String l3 (String l4 rest3))))) =>
                            match hex4 l1 l2 l3 l4 with
                            | Some lo =>
                                if (code b =? 92) && (code u =? 117)
                                   && (56320 <=? lo) && (lo <=? 57343) then
                                  match string_body rest3 with
                                  | Some (chars, after) =>
                                      Some (utf8 (65536 + (hi - 55296) * 1024
                                                  + (lo - 56320)) chars,
                                            after)
                                  | None => None
                                  end
                                else single
                            | None => single
                            end
                        | _ => single
                        end
                      else single
                  | None => None
                  end
              | _ => None
              end
            else None
        | EmptyString => None
        end
      else
        match string_body rest with
        | Some (chars, after) => Some (String c chars, after)
        | None => None
        end
  end.

(** A JSON number at the start of [s]. *)
Definition number (s : string) : option (Number.t * string) :=
  let '(neg, unsigned) := sign s false in
  let int :=
    match unsigned with
    | String c rest =>
        if code c =? 48 then Some (0, rest)
        else if is_digit c then
          let '(i, _, rest') := digits unsigned 0 0 in Some (i, rest')
        else None
    | EmptyString => None
    end in
  match int with
  | None => None
  | Some (i, rest) =>
      let frac :=
        match rest with
        | String "."%char rest' =>
            let '(m, nf, rest'') := digits rest' i 0 in
            if nf =? 0 then None else Some (m, nf, rest'')
        | _ => Some (i, 0, rest)
        end in
      match frac with
      | None => None
      | Some (m, nf, rest') =>
          let exp :=
            match rest' with
            | String c rest'' =>
                if (code c =? 101) || (code c =? 69) then
                  let '(eneg, rest3) := sign rest'' true in
                  let '(v, n, rest4) := digits rest3 0 0 in
                  if n =? 0 then None
                  else Some (if eneg then - v else v, rest4)
                else Some (0, rest')
            | EmptyString => Some (0, rest')
            end in
          match exp with
          | None => None
          | Some (e, rest'') =>
              let x := decimal m (e - nf) in
              Some (if neg then PrimFloat.opp x else x, rest'')
          end
      end
  end.

(** A JSON value at the start of [s], white space skipped, with the
    text after it.  Every call consumes a character at one level of
    [fuel] in two at least. *)
Fixpoint parse_value (fuel : nat) (s : string) : option (value * string) :=
  match fuel with
  | O => None
  | S fuel' =>
      match skip_ws s with
      | EmptyString => None
      | String c rest as text =>
          if code c =? 110 then
            match strip "null" text with
            | Some after => Some (Null, after) | None => None end
          else if code c =? 116 then
            match strip "true" text with
            | Some after => Some (Bool true, after) | None => None end
          else if code c =? 102 then
            match strip "false" text with
            | Some after => Some (Bool false, after) | None => None end
          else if code c =? 34 then
            match string_body rest with
            | Some (chars, after) => Some (Str chars, after) | None => None end
          else if code c =? 91 then
            match skip_ws rest with
            | String "]"%char after => Some (Arr [], after)
            | _ =>
                match parse_elements fuel' rest with
                | Some (items, after) => Some (Arr items, after)
                | None => None
                end
            end
          else if code c =? 123 then
            match skip_ws rest with
            | String "}"%char after => Some (Obj [], after)
            | _ =>
                match parse_members fuel' rest with
                | Some (members, after) => Some (Obj members, after)
                | None => None
                end
            end
          else
            match number text with
            | Some (x, after) => Some (Num x, after)
            | None => None
            end
      end
  end
with parse_elements (fuel : nat) (s : string)
  : option (list value * string) :=
  match fuel with
  | O => None
  | S fuel' =>
      match parse_value fuel' s with
      | Some (v, after) =>
          match skip_ws after with
          | String ","%char after' =>
              match parse_elements fuel' after' with
              | Some (items, after'') => Some (v :: items, after'')
              | None => None
              end
          | String "]"%char after' => Some ([v], after')
          | _ => None
          end
      | None => None
      end
  end
with parse_members (fuel : nat) (s : string)
  : option (list (string * value) * string) :=
  match fuel with
  | O => None
  | S fuel' =>
      match skip_ws s with
      | String c rest =>
          match (if code c =? 34 then string_body rest else None) with
          | Some (key, after) =>
              match skip_ws after with
              | String ":"%char after' =>
                  match parse_value fuel' after' with
                  | Some (v, after'') =>
                      match skip_ws after'' with
                      | String ","%char after3 =>
                          match parse_members fuel' after3 with
                          | Some (members, after4) =>
                              Some ((key, v) :: members, after4)
                          | None => None
                          end
                      | String "}"%char after3 => Some ([(key, v)], after3)
                      | _ => None
                      end
                  | None => None
                  end
              | _ => None
              end
          | None => None
          end
      | _ => None
      end
  end.

Definition JSON_parse (text : string) : completion value :=
  match parse_value (2 * String.length text + 2) text with
  | Some (v, after) =>
      match skip_ws after with
      | EmptyString => Normal v
      | String _ _ => Throw SyntaxError
      end
  | None => Throw SyntaxError
  end.

(** *** The [WebSocket] constructor

    On [BINANCE_WS_URL] followed by a query, the constructor throws a
    [SyntaxError] exactly when the URL has a fragment. *)
Fixpoint has_fragment (s : string) : bool :=
  match s with
  | String c rest => (code c =? 35) || has_fragment rest
  | EmptyString => false
  end.

Definition WebSocket_construct (url : string) : option Error :=
  if has_fragment url then Some SyntaxError else None.

Definition ascii : Platform := {|
  toUpperCase := map_chars upper_char;
  toLowerCase := map_chars lower_char;
  JS.JSON_parse := JSON_parse;
  JS.parseFloat_string := parseFloat_string;
  JS.parseFloat_nonstring := parseFloat_nonstring;
  JS.WebSocket_construct := WebSocket_construct
|}.

End Host.

(** * The scenario of the specification: one asset, one ticker frame *)

Module Scenario.

Import CryptoSlice.

Definition bitcoin : CryptoAsset.t :=
  {| CryptoAsset.id := "bitcoin";
     CryptoAsset.name := "Bitcoin";
     CryptoAsset.symbol := "BTC";
     CryptoAsset.logo := "https://picsum.photos/seed/btc/24/24";
     CryptoAsset.price := 7%float;
     CryptoAsset.percentChange1h := 0%float;
     CryptoAsset.percentChange24h := 0%float;
     CryptoAsset.percentChange7d := 0%float;
     CryptoAsset.marketCap := 137900000%float;
     CryptoAsset.volume24h := 0%float;
     CryptoAsset.circulatingSupply := 19700000%float;
     CryptoAsset.maxSupply := Some 21000000%float;
     CryptoAsset.sparkline7d := [1; 2; 3; 4; 5; 6; 7]%float |}.

Definition ethereum : CryptoAsset.t :=
  {| CryptoAsset.id := "ethereum";
     CryptoAsset.name := "Ethereum";
     CryptoAsset.symbol := "ETH";
     CryptoAsset.logo := "https://picsum.photos/seed/eth/24/24";
     CryptoAsset.price := 3%float;
     CryptoAsset.percentChange1h := 0%float;
     CryptoAsset.percentChange24h := 0%float;
     CryptoAsset.percentChange7d := 0%float;
     CryptoAsset.marketCap := 360000000%float;
     CryptoAsset.volume24h := 0%float;
     CryptoAsset.circulatingSupply := 120000000%float;
     CryptoAsset.maxSupply := None;
     CryptoAsset.sparkline7d := [3; 3; 3; 3; 3; 3; 3]%float |}.

Definition loaded (l : list CryptoAsset.t) : CryptoState :=
  {| assets := l; status := succeeded; error := error_null |}.

(** An event that carries an id and a price, as a ticker would. *)
Definition price_event (id : string) (p : Number.t) : AssetUpdatePayload.t :=
  {| AssetUpdatePayload.id := id;
     AssetUpdatePayload.price := Some p;
     AssetUpdatePayload.percentChange1h := None;
     AssetUpdatePayload.percentChange24h := None;
     AssetUpdatePayload.percentChange7d := None;
     AssetUpdatePayload.volume24h := None;
     AssetUpdatePayload.sparkline7d := None |}.

(** An event that carries a price and a sparkline, as a refresh would. *)
Definition refresh_event (id : string) (p : Number.t) (l : list Number.t)
  : AssetUpdatePayload.t :=
  {| AssetUpdatePayload.id := id;
     AssetUpdatePayload.price := Some p;
     AssetUpdatePayload.percentChange1h := None;
     AssetUpdatePayload.percentChange24h := None;
     AssetUpdatePayload.percentChange7d := None;
     AssetUpdatePayload.volume24h := None;
     AssetUpdatePayload.sparkline7d := Some l |}.

(** JSON text, written with apostrophes in place of the double quotes. *)
Definition json_text (s : string) : string :=
  Host.map_chars (fun c => if Ascii.eqb c "'"%char then Host.chr 34 else c) s.

Definition frame : string :=
  json_text "{'data':{'e':'24hrTicker','s':'BTCUSDT','c':'8','P':'1.5','q':'1000'}}".

(** What [JSON.parse] makes of [frame]. *)
Definition payload : list (string * JS.value) :=
  [("e", JS.Str "24hrTicker"); ("s", JS.Str "BTCUSDT"); ("c", JS.Str "8");
   ("P", JS.Str "1.5"); ("q", JS.Str "1000")].

Definition message : JS.value := JS.Obj [("data", JS.Obj payload)].

(** Frames that the handler drops: text that is not JSON, an event of
    another kind, a symbol outside the registry, and a price that
    cannot be converted to a string. *)
Definition malformed_frame : string := "{not json".

Definition other_event_frame : string :=
  json_text "{'data':{'e':'otherEvent','s':'BTCUSDT','c':'8','P':'1.5','q':'1000'}}".

Definition ethereum_frame : string :=
  json_text "{'data':{'e':'24hrTicker','s':'ETHUSDT','c':'8','P':'1.5','q':'1000'}}".

Definition odd_price_frame : string :=
  json_text "{'data':{'e':'24hrTicker','s':'BTCUSDT','c':{'toString':1},'P':'1.5','q':'1000'}}".

(** [asset] under another id and trading symbol. *)
Definition relabel (id symbol : string) (asset : CryptoAsset.t) : CryptoAsset.t :=
  {| CryptoAsset.id := id;
     CryptoAsset.name := CryptoAsset.name asset;
     CryptoAsset.symbol := symbol;
     CryptoAsset.logo := CryptoAsset.logo asset;
     CryptoAsset.price := CryptoAsset.price asset;
     CryptoAsset.percentChange1h := CryptoAsset.percentChange1h asset;
     CryptoAsset.percentChange24h := CryptoAsset.percentChange24h asset;
     CryptoAsset.percentChange7d := CryptoAsset.percentChange7d asset;
     CryptoAsset.marketCap := CryptoAsset.marketCap asset;
     CryptoAsset.volume24h := CryptoAsset.volume24h asset;
     CryptoAsset.circulatingSupply := CryptoAsset.circulatingSupply asset;
     CryptoAsset.maxSupply := CryptoAsset.maxSupply asset;
     CryptoAsset.sparkline7d := CryptoAsset.sparkline7d asset |}.

(** The service started on a list of assets, over a store that holds
    them. *)
Definition started_on (l : list CryptoAsset.t) : MockSocket.World :=
  MockSocket.start (host := Host.ascii) l (MockSocket.fresh (loaded l)).

Definition started : MockSocket.World := started_on [bitcoin].

End Scenario.

(** ** store/crypto-slice.ts: the reducer of the slice

    The actions the slice reacts to: its own [updateAsset], and the three
    life-cycle actions of the [fetchAssets] thunk; on any other action the
    reducer of a slice returns the state it was given. *)

Module CryptoReducer.

Import CryptoSlice.

Inductive Action : Set :=
| updateAsset_action (payload : AssetUpdatePayload.t)
| fetchAssets_pending
| fetchAssets_fulfilled (payload : list CryptoAsset.t)
| fetchAssets_rejected (message : option string)   (* [action.error.message] *)
| unrelated.

Definition reducer (state : CryptoState) (action : Action) : CryptoState :=
  match action with
  | updateAsset_action payload => updateAsset state payload
  | fetchAssets_pending =>
      {| assets := assets state; status := loading; error := error state |}
  | fetchAssets_fulfilled payload =>
      {| assets := payload; status := succeeded; error := error state |}
  | fetchAssets_rejected message =>
      {| assets := assets state;
         status := failed;
         error := match message with
                  | Some msg => error_message msg
                  | None => error_undefined
                  end |}
  | unrelated => state
  end.

Definition reduce (actions : list Action) (state : CryptoState) : CryptoState :=
  foldl reducer state actions.

Definition is_fulfilled (action : Action) : bool :=
  match action with fetchAssets_fulfilled _ => true | _ => false end.

Definition is_rejected (action : Action) : bool :=
  match action with fetchAssets_rejected _ => true | _ => false end.

(** The actions of the thunk, which set the status. *)
Definition is_fetch (action : Action) : bool :=
  match action with
  | fetchAssets_pending | fetchAssets_fulfilled _ | fetchAssets_rejected _ => true
  | _ => false
  end.

Definition status_after (action : Action) (before : Status) : Status :=
  match action with
  | fetchAssets_pending => loading
  | fetchAssets_fulfilled _ => succeeded
  | fetchAssets_rejected _ => failed
  | _ => before
  end.

(** An event that shifts the sparkline: a truthy price and no sparkline. *)
Definition shifts (payload : AssetUpdatePayload.t) : Prop :=
  AssetUpdatePayload.sparkline7d payload = None
  /\ exists P, AssetUpdatePayload.price payload = Some P
               /\ Number.ToBoolean P = true.

(** The prices that a list of events carries, in order. *)
Definition prices (events : list AssetUpdatePayload.t) : list Number.t :=
  omap AssetUpdatePayload.price events.

End CryptoReducer.

(** ** The service in use: what its owner and the event loop do to it

    [App.tsx] holds one instance and calls [start] and [stop] on it; in
    between, the event loop delivers the events of the transports and
    fires the timers. *)

Module Session.

Import JS CryptoSlice MockSocket.

(** The four handler slots hold the handlers of the service, and
    [close] has not been called. *)
Definition attached (s : WebSocket) : Prop :=
  onopen s = true /\ onmessage s = true /\ onerror s = true
  /\ onclose s = true /\ closeCalled s = None.

(** The four handler slots are [null]. *)
Definition detached (s : WebSocket) : Prop :=
  onopen s = false /\ onmessage s = false /\ onerror s = false
  /\ onclose s = false.

(** The handle of the service, when it has one, is a transport with
    its handlers that was not asked to close; and a transport that was
    asked to close has lost its handlers. *)
Definition consistent (w : World) : Prop :=
  (forall i, ws w = Some i -> exists s, sockets w !! i = Some s /\ attached s)
  /\ (forall j s, sockets w !! j = Some s -> is_Some (closeCalled s) -> detached s).

(** An event of the shape [handleMessage] builds: a price, a 24 h
    change and a volume, and nothing else. *)
Definition ticker_shaped (payload : AssetUpdatePayload.t) : Prop :=
  is_Some (AssetUpdatePayload.price payload)
  /\ is_Some (AssetUpdatePayload.percentChange24h payload)
  /\ is_Some (AssetUpdatePayload.volume24h payload)
  /\ AssetUpdatePayload.percentChange1h payload = None
  /\ AssetUpdatePayload.percentChange7d payload = None
  /\ AssetUpdatePayload.sparkline7d payload = None.

(** The state in which [start] goes on after its first statement,
    [if (this.ws) this.stop()]. *)
Definition torn_down (w : World) : World :=
  match ws w with Some _ => stop w | None => w end.

Section Owner.

Context {host : Platform}.

(** The URL that [start] hands to the constructor. *)
Definition streamsUrl (assets : list CryptoAsset.t) : string :=
  BINANCE_WS_URL +:+ "?streams=" +:+ String.concat "/" (map streamName assets).

(** The transport that [start] creates. *)
Definition opened (assets : list CryptoAsset.t) : WebSocket :=
  mkWebSocket (streamsUrl assets) true true true true None.

Inductive Action : Type :=
| call_start (assets : list CryptoAsset.t)
| call_stop
| deliver (ev : Event).

Definition act (a : Action) (w : World) : World :=
  match a with
  | call_start assets => start assets w
  | call_stop => stop w
  | deliver ev => step ev w
  end.

Definition session (actions : list Action) (w : World) : World :=
  foldl (fun w a => act a w) w actions.

End Owner.

(** The transport an event comes from. *)
Definition transport_of (ev : Event) : option nat :=
  match ev with
  | timer_fires _ => None
  | socket_open i | socket_message i _ | socket_error i _ | socket_close i _ => Some i
  end.

End Session.

(** ** More frames and worlds for the examples *)

Module Examples.

(** A ticker frame whose last price is zero, and what [JSON.parse]
    makes of it. *)
Definition zero_price_frame : string :=
  Scenario.json_text
    "{'data':{'e':'24hrTicker','s':'BTCUSDT','c':'0.00000000','P':'1.5','q':'1000'}}".

Definition zero_price_payload : list (string * JS.value) :=
  [("e", JS.Str "24hrTicker"); ("s", JS.Str "BTCUSDT"); ("c", JS.Str "0.00000000");
   ("P", JS.Str "1.5"); ("q", JS.Str "1000")].

Definition zero_price_message : JS.value := JS.Obj [("data", JS.Obj zero_price_payload)].

(** A close of the transport that the transport layer reports as not
    clean. *)
Definition abnormal_closure : MockSocket.CloseEvent :=
  MockSocket.mkCloseEvent 1006 "" false.





End Examples.

(** ** services/crypto-data.ts: the snapshot

    The part of [getCryptoAssetWithLiveData] that follows the requests:
    the asset it builds from what [fetchTickerData] and [fetchKlineData]
    returned ([None] is their [null]), the values being of the types
    these functions declare.  [toFixed] is [Number.prototype.toFixed],
    left open like the other built-ins. *)

Module CryptoData.

Record BaseAsset : Set := mkBaseAsset {
  id : string;
  name : string;
  symbol : string;
  logo : string;
  circulatingSupply : Number.t;
  maxSupply : option Number.t
}.

Definition baseAssets : list BaseAsset :=
  [ mkBaseAsset "bitcoin" "Bitcoin" "BTC" "https://picsum.photos/seed/btc/24/24"
      19700000%float (Some 21000000%float);
    mkBaseAsset "ethereum" "Ethereum" "ETH" "https://picsum.photos/seed/eth/24/24"
      120000000%float None;
    mkBaseAsset "tether" "Tether" "USDT" "https://picsum.photos/seed/usdt/24/24"
      110000000000%float None;
    mkBaseAsset "binancecoin" "BNB" "BNB" "https://picsum.photos/seed/bnb/24/24"
      153000000%float (Some 200000000%float);
    mkBaseAsset "solana" "Solana" "SOL" "https://picsum.photos/seed/sol/24/24"
      460000000%float None ].

Record BinanceTicker : Set := mkBinanceTicker {
  ticker_symbol : string;
  lastPrice : string;
  priceChangePercent : string;
  quoteVolume : string
}.

(** [BinanceKline], a tuple of twelve; the code reads the item 4, the
    closing price. *)
Record BinanceKline : Set := mkBinanceKline {
  item0 : Number.t;
  item1 : string;
  item2 : string;
  item3 : string;
  item4 : string;
  item5 : string;
  item6 : Number.t;
  item7 : string;
  item8 : Number.t;
  item9 : string;
  item10 : string;
  item11 : string
}.

(** What the three requests for one asset returned. *)
Record Fetched : Set := mkFetched {
  tickerData : option BinanceTicker;
  dailyKlines : option (list BinanceKline);
  hourlyKlines : option (list BinanceKline)
}.

(** [x || y] on numbers, [x] being [undefined] when [None]. *)
Definition or_else (x : option Number.t) (y : Number.t) : Number.t :=
  match x with
  | Some x' => if Number.ToBoolean x' then x' else y
  | None => y
  end.

(** [while (sparkline7d.length < 7) sparkline7d.unshift(sparkline7d[0] || currentPrice)],
    [fuel] bounding the number of turns. *)
Fixpoint unshift_to_seven (fuel : nat) (currentPrice : Number.t)
    (sparkline7d : list Number.t) : list Number.t :=
  if (length sparkline7d <? 7)%nat then
    match fuel with
    | O => sparkline7d
    | S fuel' =>
        unshift_to_seven fuel' currentPrice
          (or_else (head sparkline7d) currentPrice :: sparkline7d)
    end
  else sparkline7d.

(** [((currentPrice - past) / past) * 100] *)
Definition change (currentPrice past : Number.t) : Number.t :=
  PrimFloat.mul (PrimFloat.div (PrimFloat.sub currentPrice past) past) 100%float.

(** [x !== 0] on numbers *)
Definition not_zero (x : Number.t) : bool := negb (PrimFloat.eqb x 0%float).

Section LiveData.

Context {host : JS.Platform}.

Variable toFixed : Number.t -> Z -> string.

Definition close_of (kline : BinanceKline) : Number.t :=
  JS.parseFloat_string (item4 kline).

Definition getCryptoAssetWithLiveData (baseAsset : BaseAsset) (fetched : Fetched)
  : option CryptoAsset.t :=
  if String.eqb (symbol baseAsset) "USDT" then
    let price := 1%float in
    let approxVolume := PrimFloat.div (circulatingSupply baseAsset) 2%float in
    Some {| CryptoAsset.id := id baseAsset;
            CryptoAsset.name := name baseAsset;
            CryptoAsset.symbol := symbol baseAsset;
            CryptoAsset.logo := logo baseAsset;
            CryptoAsset.price := price;
            CryptoAsset.percentChange1h := 0%float;
            CryptoAsset.percentChange24h := 0%float;
            CryptoAsset.percentChange7d := 0%float;
            CryptoAsset.marketCap := PrimFloat.mul (circulatingSupply baseAsset) price;
            CryptoAsset.volume24h := approxVolume;
            CryptoAsset.circulatingSupply := circulatingSupply baseAsset;
            CryptoAsset.maxSupply := maxSupply baseAsset;
            CryptoAsset.sparkline7d := replicate 7 price |}
  else
    match tickerData fetched with
    | None =>
        Some {| CryptoAsset.id := id baseAsset;
                CryptoAsset.name := name baseAsset;
                CryptoAsset.symbol := symbol baseAsset;
                CryptoAsset.logo := logo baseAsset;
                CryptoAsset.price := 0%float;
                CryptoAsset.percentChange1h := 0%float;
                CryptoAsset.percentChange24h := 0%float;
                CryptoAsset.percentChange7d := 0%float;
                CryptoAsset.marketCap := 0%float;
                CryptoAsset.volume24h := 0%float;
                CryptoAsset.circulatingSupply := circulatingSupply baseAsset;
                CryptoAsset.maxSupply := maxSupply baseAsset;
                CryptoAsset.sparkline7d := replicate 7 0%float |}
    | Some ticker =>
        let currentPrice := JS.parseFloat_string (lastPrice ticker) in
        let percentChange24h := JS.parseFloat_string (priceChangePercent ticker) in
        let volume24h := JS.parseFloat_string (quoteVolume ticker) in
        let marketCap := PrimFloat.mul currentPrice (circulatingSupply baseAsset) in
        let percentChange1h :=
          match hourlyKlines fetched with
          | Some (first :: _ :: _) =>
              let price1HourAgo := close_of first in
              if not_zero price1HourAgo then change currentPrice price1HourAgo
              else 0%float
          | _ => 0%float
          end in
        let '(percentChange7d, sparkline7d) :=
          match dailyKlines fetched with
          | Some ((first :: rest) as klines) =>
              if (8 <=? length klines)%nat then
                let price7DaysAgo := close_of first in
                (if not_zero price7DaysAgo then change currentPrice price7DaysAgo
                 else 0%float,
                 map close_of rest)
              else
                (0%float,
                 unshift_to_seven 7 currentPrice
                   (map close_of (drop (length klines - 7) klines)))
          | _ => (0%float, replicate 7 currentPrice)
          end in
        Some {| CryptoAsset.id := id baseAsset;
                CryptoAsset.name := name baseAsset;
                CryptoAsset.symbol := symbol baseAsset;
                CryptoAsset.logo := logo baseAsset;
                CryptoAsset.price := currentPrice;
                CryptoAsset.percentChange1h :=
                  JS.parseFloat_string (toFixed percentChange1h 2);
                CryptoAsset.percentChange24h :=
                  JS.parseFloat_string (toFixed percentChange24h 2);
                CryptoAsset.percentChange7d :=
                  JS.parseFloat_string (toFixed percentChange7d 2);
                CryptoAsset.marketCap := marketCap;
                CryptoAsset.volume24h := volume24h;
                CryptoAsset.circulatingSupply := circulatingSupply baseAsset;
                CryptoAsset.maxSupply := maxSupply baseAsset;
                CryptoAsset.sparkline7d := sparkline7d |}
    end.

(** [getCryptoAssets], [responses] giving what the requests for each
    base asset returned: the assets that are not [null], in the order
    of [baseAssets]. *)
Definition getCryptoAssets (responses : BaseAsset -> Fetched)
  : list CryptoAsset.t :=
  omap (fun baseAsset => getCryptoAssetWithLiveData baseAsset (responses baseAsset))
       baseAssets.

(** The value that pads a short history: its oldest close when that is
    truthy, the current price otherwise. *)
Definition padding (currentPrice : Number.t) (closes : list Number.t) : Number.t :=
  or_else (head closes) currentPrice.

End LiveData.

End CryptoData.

(** ** [Number.prototype.toFixed] for the examples

    The number is rounded to the nearest multiple of [10 ^ -digits], a
    tie going away from zero, on its exact value.  Magnitudes of
    [1e21] and more, which the built-in prints as [toString] does, are
    printed here with all their digits. *)

Module HostNumbers.

Fixpoint decimal_digits (fuel : nat) (n : Z) (acc : string) : string :=
  match fuel with
  | O => acc
  | S fuel' =>
      let acc' := String (Host.chr (48 + n mod 10)) acc in
      if n / 10 =? 0 then acc' else decimal_digits fuel' (n / 10) acc'
  end.

(** The decimal numeral of [0 <= n]. *)
Definition numeral (n : Z) : string :=
  decimal_digits (S (Z.to_nat (Z.log2 n))) n "".

Fixpoint zeros (k : nat) (s : string) : string :=
  match k with
  | O => s
  | S k' => String "0"%char (zeros k' s)
  end.

(** [n / 10 ^ digits] written with [digits] decimals. *)
Definition fixed_point (n : Z) (digits : nat) : string :=
  let all := numeral n in
  let padded := zeros (S digits - String.length all)%nat all in
  let whole := (String.length padded - digits)%nat in
  if (digits =? 0)%nat then padded
  else String.substring 0 whole padded +:+ "." +:+ String.substring whole digits padded.

(** The integer nearest to [m * 2 ^ e * 10 ^ digits], ties upwards. *)
Definition scaled (m e : Z) (digits : nat) : Z :=
  let p := 10 ^ Z.of_nat digits in
  if 0 <=? e then m * 2 ^ e * p
  else (2 * m * p + 2 ^ (- e)) / (2 * 2 ^ (- e)).

Definition toFixed (x : Number.t) (digits : Z) : string :=
  match Prim2SF x with
  | S754_nan => "NaN"
  | S754_infinity negative => if negative then "-Infinity" else "Infinity"
  | S754_zero _ => fixed_point 0 (Z.to_nat digits)
  | S754_finite negative m e =>
      let body := fixed_point (scaled (Z.pos m) e (Z.to_nat digits)) (Z.to_nat digits) in
      if negative then "-" +:+ body else body
  end.

End HostNumbers.

(** ** Answers of the REST interface for the examples *)

Module SnapshotExamples.

Import CryptoData.

(** A kline that closes at [close]. *)
Definition kline (close : string) : BinanceKline :=
  mkBinanceKline 0%float "0" "0" "0" close "0" 0%float "0" 0%float "0" "0" "0".

Definition ticker : BinanceTicker := mkBinanceTicker "BTCUSDT" "8" "1.5" "1000".

Definition bitcoin : BaseAsset :=
  mkBaseAsset "bitcoin" "Bitcoin" "BTC" "https://picsum.photos/seed/btc/24/24"
    19700000%float (Some 21000000%float).

(** Eight daily klines and two hourly ones. *)
Definition full : Fetched :=
  mkFetched (Some ticker)
    (Some [kline "1"; kline "2"; kline "3"; kline "4"; kline "5"; kline "6";
           kline "7"; kline "8"])
    (Some [kline "5"; kline "8"]).

(** Three daily klines, the oldest closing at zero. *)
Definition short : Fetched :=
  mkFetched (Some ticker) (Some [kline "0"; kline "7"; kline "8"]) None.

(** Every request failed. *)
Definition nothing : Fetched := mkFetched None None None.

(** The five base assets with the fields of [asset] but the id and
    the symbol. *)
Definition relabelled (asset : CryptoAsset.t) : list CryptoAsset.t :=
  map (fun b => Scenario.relabel (id b) (symbol b) asset) baseAssets.

End SnapshotExamples.

(** ** components/crypto-table.tsx: sorting and filtering

    The state of the table (the sort column and direction, the
    category and the search box) and the list of rows it computes.
    [Array.prototype.sort] is left open: the rows are those that pass
    the filters, in the order the engine gives them. *)

Module CryptoTable.

Inductive SortField : Set :=
| price | percentChange1h | percentChange24h | percentChange7d | marketCap | volume24h.

Inductive SortDirection : Set := asc | desc.

Inductive FilterOption : Set := all | gainers | losers | stablecoins.

Record SortState : Set := mkSortState {
  sortField : SortField;
  sortDirection : SortDirection
}.

(** [useState('marketCap')], [useState('desc')] *)
Definition initialSort : SortState := mkSortState marketCap desc.

Definition SortField_eqb (a b : SortField) : bool :=
  match a, b with
  | price, price | percentChange1h, percentChange1h
  | percentChange24h, percentChange24h | percentChange7d, percentChange7d
  | marketCap, marketCap | volume24h, volume24h => true
  | _, _ => false
  end.

Definition handleSort (field : SortField) (st : SortState) : SortState :=
  if SortField_eqb (sortField st) field then
    (* Toggle direction if same field *)
    mkSortState (sortField st)
      (match sortDirection st with asc => desc | desc => asc end)
  else
    (* Set new field with default desc direction *)
    mkSortState field desc.

(** [asset[sortField]] *)
Definition field_of (field : SortField) (asset : CryptoAsset.t) : Number.t :=
  match field with
  | price => CryptoAsset.price asset
  | percentChange1h => CryptoAsset.percentChange1h asset
  | percentChange24h => CryptoAsset.percentChange24h asset
  | percentChange7d => CryptoAsset.percentChange7d asset
  | marketCap => CryptoAsset.marketCap asset
  | volume24h => CryptoAsset.volume24h asset
  end.

(** The function handed to [sort]. *)
Definition comparator (field : SortField) (direction : SortDirection)
    (a b : CryptoAsset.t) : Z :=
  let aValue := field_of field a in
  let bValue := field_of field b in
  let compareResult :=
    if PrimFloat.ltb bValue aValue then 1
    else if PrimFloat.ltb aValue bValue then -1 else 0 in
  match direction with
  | asc => compareResult
  | desc => - compareResult
  end.

(** [s.includes(sub)] *)
Fixpoint includes (s sub : string) : bool :=
  String.prefix sub s
  || match s with
     | String _ rest => includes rest sub
     | EmptyString => false
     end.

(** The test of a category; [all] has no case in the [switch]. *)
Definition in_category (filterOption : FilterOption) (asset : CryptoAsset.t) : bool :=
  match filterOption with
  | all => true
  | gainers => PrimFloat.ltb 0%float (CryptoAsset.percentChange24h asset)
  | losers => PrimFloat.ltb (CryptoAsset.percentChange24h asset) 0%float
  | stablecoins =>
      includes (CryptoAsset.symbol asset) "USD"
      || (PrimFloat.ltb (-0.5)%float (CryptoAsset.percentChange24h asset)
          && PrimFloat.ltb (CryptoAsset.percentChange24h asset) 0.5%float)
  end.

Section Rows.

Context {host : JS.Platform}.

Variable sort :
  (CryptoAsset.t -> CryptoAsset.t -> Z) -> list CryptoAsset.t -> list CryptoAsset.t.

Definition matches_search (searchQuery : string) (asset : CryptoAsset.t) : bool :=
  let query := JS.toLowerCase searchQuery in
  includes (JS.toLowerCase (CryptoAsset.name asset)) query
  || includes (JS.toLowerCase (CryptoAsset.symbol asset)) query.

Definition filteredAndSortedAssets (assets : list CryptoAsset.t)
    (filterOption : FilterOption) (searchQuery : string) (st : SortState)
  : list CryptoAsset.t :=
  let result := assets in
  let result :=
    match filterOption with
    | all => result
    | _ => List.filter (in_category filterOption) result
    end in
  let result :=
    if negb (String.eqb searchQuery "")
    then List.filter (matches_search searchQuery) result
    else result in
  sort (comparator (sortField st) (sortDirection st)) result.

End Rows.

(** A sort for the examples: insertion, which keeps the order of the
    elements the function does not tell apart. *)
Fixpoint insert_sorted {A : Type} (cmp : A -> A -> Z) (x : A) (l : list A) : list A :=
  match l with
  | [] => [x]
  | y :: rest => if 0 <? cmp x y then y :: insert_sorted cmp x rest else x :: l
  end.

Definition insertion_sort {A : Type} (cmp : A -> A -> Z) (l : list A) : list A :=
  foldr (insert_sorted cmp) [] l.

End CryptoTable.

(** * Properties of the merge reducer *)

Section MergeFacts.

Import CryptoSlice.

Implicit Types (state : CryptoState) (payload : AssetUpdatePayload.t).
Implicit Types (asset : CryptoAsset.t) (i j : nat).

Lemma findIndex_lower {A : Type} (p : A -> bool) (l : list A) :
  -1 <= findIndex p l.
Proof.
  induction l as [|x rest IH]; simpl; [lia|].
  destruct (p x); [lia|].
  destruct (findIndex p rest =? -1) eqn:E; lia.
Qed.

Lemma findIndex_none {A : Type} (p : A -> bool) (l : list A) :
  (forall x, x ∈ l -> p x = false) -> findIndex p l = -1.
Proof.
  induction l as [|x rest IH]; intros Hall; simpl; [reflexivity|].
  rewrite (Hall x) by (constructor).
  rewrite IH; [reflexivity|].
  intros y Hy. apply Hall. by constructor.
Qed.

Lemma findIndex_first {A : Type} (p : A -> bool) (l : list A) i x :
  l !! i = Some x ->
  p x = true ->
  (forall j y, (j < i)%nat -> l !! j = Some y -> p y = false) ->
  findIndex p l = Z.of_nat i.
Proof.
  revert i. induction l as [|h rest IH]; intros i Hi Hp Hbefore.
  - discriminate.
  - destruct i as [|i']; simpl in *.
    + injection Hi as ->. by rewrite Hp.
    + rewrite (Hbefore 0%nat h) by (reflexivity || lia).
      rewrite (IH i' Hi Hp).
      * destruct (Z.of_nat i' =? -1) eqn:E; lia.
      * intros j y Hj Hy. apply (Hbefore (S j) y); [lia | exact Hy].
Qed.

Lemma findIndex_found {A : Type} (p : A -> bool) (l : list A) i :
  findIndex p l = Z.of_nat i ->
  exists x, l !! i = Some x /\ p x = true
            /\ forall j y, (j < i)%nat -> l !! j = Some y -> p y = false.
Proof.
  revert i. induction l as [|h rest IH]; intros i; simpl.
  - lia.
  - destruct (p h) eqn:Hp.
    + intros Hi. assert (i = 0%nat) as -> by lia.
      exists h. repeat split; [exact Hp | intros; lia].
    + pose proof (findIndex_lower p rest) as Hlow.
      destruct (findIndex p rest =? -1) eqn:E; [lia|].
      intros Hi. destruct i as [|i']; [lia|].
      destruct (IH i') as (x & Hx & Hpx & Hbefore); [lia|].
      exists x. repeat split; [exact Hx | exact Hpx |].
      intros [|j] y Hj Hy; simpl in Hy.
      * by injection Hy as <-.
      * apply (Hbefore j); [lia | exact Hy].
Qed.

Lemma id_eqb_true asset payload :
  String.eqb (CryptoAsset.id asset) (AssetUpdatePayload.id payload) = true
  <-> CryptoAsset.id asset = AssetUpdatePayload.id payload.
Proof. apply String.eqb_eq. Qed.

Lemma id_eqb_false asset payload :
  String.eqb (CryptoAsset.id asset) (AssetUpdatePayload.id payload) = false
  <-> CryptoAsset.id asset <> AssetUpdatePayload.id payload.
Proof. apply String.eqb_neq. Qed.

Lemma matched_findIndex payload state i asset :
  matched payload state i asset ->
  findIndex (fun a => String.eqb (CryptoAsset.id a) (AssetUpdatePayload.id payload))
            (assets state) = Z.of_nat i.
Proof.
  intros (Hi & Hid & Hbefore).
  apply (findIndex_first _ _ i asset Hi).
  - by apply id_eqb_true.
  - intros j y Hj Hy. apply id_eqb_false. by apply (Hbefore j).
Qed.

Lemma findIndex_matched payload state i :
  findIndex (fun a => String.eqb (CryptoAsset.id a) (AssetUpdatePayload.id payload))
            (assets state) = Z.of_nat i ->
  exists asset, matched payload state i asset.
Proof.
  intros Hfind. destruct (findIndex_found _ _ _ Hfind) as (x & Hx & Hp & Hb).
  exists x. split; [exact Hx|]. split; [by apply id_eqb_true|].
  intros j y Hj Hy. apply id_eqb_false. by apply (Hb j).
Qed.

(** The reducer on an event whose id is in the collection. *)
Lemma updateAsset_matched payload state i asset :
  matched payload state i asset ->
  updateAsset state payload
  = set_assets state (<[i := merge_asset asset payload]> (assets state)).
Proof.
  intros Hm. pose proof (matched_findIndex _ _ _ _ Hm) as Hfind.
  destruct Hm as (Hi & _ & _).
  unfold updateAsset, merge_asset. rewrite Hfind.
  replace (Z.of_nat i =? -1) with false by (symmetry; apply Z.eqb_neq; lia).
  simpl. rewrite Nat2Z.id, Hi.
  destruct (AssetUpdatePayload.price payload) as [p|];
    destruct (AssetUpdatePayload.sparkline7d payload) as [l|];
    try reflexivity.
  by destruct (Number.ToBoolean p).
Qed.

(** The reducer on an event whose id is not in the collection. *)
Lemma updateAsset_unmatched payload state :
  (forall asset, asset ∈ assets state ->
     CryptoAsset.id asset <> AssetUpdatePayload.id payload) ->
  updateAsset state payload = state.
Proof.
  intros Hnone. unfold updateAsset.
  rewrite findIndex_none; [reflexivity|].
  intros x Hx. apply id_eqb_false. by apply Hnone.
Qed.

Lemma findIndex_none_inv {A : Type} (p : A -> bool) (l : list A) :
  findIndex p l = -1 -> forall x, x ∈ l -> p x = false.
Proof.
  induction l as [|h rest IH]; simpl; intros Hfind x Hx.
  - by apply elem_of_nil in Hx.
  - destruct (p h) eqn:Hp; [lia|].
    pose proof (findIndex_lower p rest) as Hlow.
    destruct (findIndex p rest =? -1) eqn:E; [|lia].
    apply Z.eqb_eq in E.
    apply elem_of_cons in Hx as [->|Hx]; [exact Hp | by apply IH].
Qed.

Lemma matched_or_unknown payload state :
  (exists i asset, matched payload state i asset)
  \/ (forall asset, asset ∈ assets state ->
        CryptoAsset.id asset <> AssetUpdatePayload.id payload).
Proof.
  set (p := fun a => String.eqb (CryptoAsset.id a) (AssetUpdatePayload.id payload)).
  destruct (Z.eq_dec (findIndex p (assets state)) (-1)) as [Hnone|Hsome].
  - right. intros asset Hin. apply id_eqb_false.
    by apply (findIndex_none_inv p (assets state)).
  - left. pose proof (findIndex_lower p (assets state)) as Hlow.
    destruct (findIndex_matched payload state (Z.to_nat (findIndex p (assets state))))
      as [asset Ha].
    + subst p. lia.
    + eauto.
Qed.

End MergeFacts.

(** * The claims on the merge reducer *)

Section MergeClaims.

Import CryptoSlice.

Implicit Types (state : CryptoState) (payload : AssetUpdatePayload.t).
Implicit Types (asset : CryptoAsset.t) (i j : nat).

Lemma lookup_updated payload state i asset :
  matched payload state i asset ->
  assets (updateAsset state payload) !! i = Some (merge_asset asset payload).
Proof.
  intros Hm. rewrite (updateAsset_matched _ _ _ _ Hm). simpl.
  destruct Hm as (Hi & _). apply list_lookup_insert_eq.
  by apply lookup_lt_Some in Hi.
Qed.

Lemma float_neq_by_eqb (x y : Number.t) :
  PrimFloat.eqb x x = true -> PrimFloat.eqb x y = false -> x <> y.
Proof. intros Hxx Hxy ->. congruence. Qed.

(** C1, as amended.  For the first asset of the store with its id, of
    sparkline [S], and a price [P] that is truthy (neither zero nor
    NaN), an event with that id and price and no sparkline7d property
    leaves the asset with the sparkline [S[1:] + [P]], which has 7
    elements when [S] has. *)
Theorem updateAsset_price_only_shifts payload state i asset P :
  matched payload state i asset ->
  AssetUpdatePayload.price payload = Some P ->
  AssetUpdatePayload.sparkline7d payload = None ->
  Number.ToBoolean P = true ->
  exists asset',
    assets (updateAsset state payload) !! i = Some asset'
    /\ CryptoAsset.sparkline7d asset'
       = drop 1 (CryptoAsset.sparkline7d asset) ++ [P]
    /\ (length (CryptoAsset.sparkline7d asset) = 7%nat ->
        length (CryptoAsset.sparkline7d asset') = 7%nat).
Proof.
  intros Hm Hprice Hspark Htruthy.
  exists (merge_asset asset payload). split; [by apply lookup_updated|].
  unfold merge_asset. rewrite Hprice, Hspark, Htruthy. simpl.
  split; [reflexivity|].
  intros Hlen. rewrite length_app, length_drop, Hlen. reflexivity.
Qed.

Lemma updateAsset_price_only_shifts_witness :
  exists asset',
    assets (updateAsset (Scenario.loaded [Scenario.bitcoin])
                        (Scenario.price_event "bitcoin" 8%float)) !! 0%nat
    = Some asset'
    /\ CryptoAsset.sparkline7d asset'
       = drop 1 (CryptoAsset.sparkline7d Scenario.bitcoin) ++ [8%float]
    /\ (length (CryptoAsset.sparkline7d Scenario.bitcoin) = 7%nat ->
        length (CryptoAsset.sparkline7d asset') = 7%nat).
Proof.
  apply (updateAsset_price_only_shifts
           (Scenario.price_event "bitcoin" 8%float)
           (Scenario.loaded [Scenario.bitcoin]) 0%nat Scenario.bitcoin 8%float).
  - split; [reflexivity|]. split; [reflexivity|]. intros j other Hj. lia.
  - reflexivity.
  - reflexivity.
  - reflexivity.
Defined.

(** C1 as stated fails at the price 0: the guard of the reducer reads
    the price as absent, the price is stored and the sparkline is left
    as it was, where the claim asks for [2,3,4,5,6,7,0]. *)
Lemma updateAsset_zero_price_keeps_sparkline :
  matched (Scenario.price_event "bitcoin" 0%float)
          (Scenario.loaded [Scenario.bitcoin]) 0%nat Scenario.bitcoin
  /\ length (CryptoAsset.sparkline7d Scenario.bitcoin) = 7%nat
  /\ exists asset',
       assets (updateAsset (Scenario.loaded [Scenario.bitcoin])
                           (Scenario.price_event "bitcoin" 0%float)) !! 0%nat
       = Some asset'
       /\ CryptoAsset.price asset' = 0%float
       /\ CryptoAsset.sparkline7d asset' = [1; 2; 3; 4; 5; 6; 7]%float
       /\ CryptoAsset.sparkline7d asset'
          <> drop 1 (CryptoAsset.sparkline7d Scenario.bitcoin) ++ [0%float].
Proof.
  split.
  { split; [reflexivity|]. split; [reflexivity|]. intros j other Hj. lia. }
  split; [reflexivity|].
  eexists. split; [reflexivity|]. split; [reflexivity|]. split; [reflexivity|].
  simpl. intros Heq.
  apply (f_equal (fun l => default PrimFloat.nan (head l))) in Heq.
  by apply (float_neq_by_eqb 1%float 2%float) in Heq.
Qed.

Lemma merge_asset_length asset payload :
  length (CryptoAsset.sparkline7d asset) = 7%nat ->
  (forall l, AssetUpdatePayload.sparkline7d payload = Some l -> length l = 7%nat) ->
  length (CryptoAsset.sparkline7d (merge_asset asset payload)) = 7%nat.
Proof.
  intros Hlen Hreplace. unfold merge_asset.
  destruct (AssetUpdatePayload.price payload) as [p|] eqn:Hp;
    destruct (AssetUpdatePayload.sparkline7d payload) as [l|] eqn:Hs;
    simpl; rewrite ?Hs; simpl; auto.
  destruct (Number.ToBoolean p); simpl; rewrite ?Hs; simpl; auto.
  rewrite length_app, length_drop, Hlen. reflexivity.
Qed.

(** C2, as amended.  An event whose sparkline7d property is absent or
    has 7 elements preserves the invariant that every asset of the
    store has a sparkline of 7 elements; and after an event that
    carries a truthy price and no sparkline7d, the asset it selects has
    that price as its price and as the last element of its sparkline. *)
Theorem updateAsset_preserves_window payload state :
  Forall (fun a => length (CryptoAsset.sparkline7d a) = 7%nat) (assets state) ->
  (forall l, AssetUpdatePayload.sparkline7d payload = Some l -> length l = 7%nat) ->
  Forall (fun a => length (CryptoAsset.sparkline7d a) = 7%nat)
         (assets (updateAsset state payload))
  /\ forall i asset P,
       matched payload state i asset ->
       AssetUpdatePayload.price payload = Some P ->
       AssetUpdatePayload.sparkline7d payload = None ->
       Number.ToBoolean P = true ->
       exists asset',
         assets (updateAsset state payload) !! i = Some asset'
         /\ CryptoAsset.price asset' = P
         /\ last (CryptoAsset.sparkline7d asset') = Some P.
Proof.
  intros Hinv Hreplace. split.
  - destruct (matched_or_unknown payload state) as [(i & asset & Hm)|Hnone].
    + rewrite (updateAsset_matched _ _ _ _ Hm). simpl.
      apply Forall_insert; [exact Hinv|].
      apply merge_asset_length; [|exact Hreplace].
      destruct Hm as (Hi & _).
      by apply (Forall_lookup_1 _ _ _ _ Hinv Hi).
    + by rewrite updateAsset_unmatched.
  - intros i asset P Hm Hprice Hspark Htruthy.
    exists (merge_asset asset payload). split; [by apply lookup_updated|].
    unfold merge_asset. rewrite Hprice, Hspark, Htruthy. simpl.
    rewrite Hprice. simpl. split; [reflexivity|]. apply last_snoc.
Qed.

Lemma updateAsset_preserves_window_witness :
  Forall (fun a => length (CryptoAsset.sparkline7d a) = 7%nat)
         (assets (updateAsset (Scenario.loaded [Scenario.bitcoin; Scenario.ethereum])
                              (Scenario.price_event "ethereum" 4%float)))
  /\ exists asset',
       assets (updateAsset (Scenario.loaded [Scenario.bitcoin; Scenario.ethereum])
                           (Scenario.price_event "ethereum" 4%float)) !! 1%nat
       = Some asset'
       /\ CryptoAsset.price asset' = 4%float
       /\ last (CryptoAsset.sparkline7d asset') = Some 4%float.
Proof.
  destruct (updateAsset_preserves_window
              (Scenario.price_event "ethereum" 4%float)
              (Scenario.loaded [Scenario.bitcoin; Scenario.ethereum]))
    as [Hwindow Hlast].
  - repeat constructor.
  - intros l Hl. discriminate Hl.
  - split; [exact Hwindow|].
    apply (Hlast 1%nat Scenario.ethereum 4%float).
    + split; [reflexivity|]. split; [reflexivity|].
      intros [|j] other Hj Hother; [|lia].
      injection Hother as <-. discriminate.
    + reflexivity.
    + reflexivity.
    + reflexivity.
Defined.

(** C2 as stated fails on an event that carries a price and a
    sparkline7d of two elements: the sparkline of the asset is replaced
    by the two elements, so it has not 7 elements and its last element
    is not the price of the event. *)
Lemma updateAsset_short_sparkline_breaks_window :
  Forall (fun a => length (CryptoAsset.sparkline7d a) = 7%nat)
         (assets (Scenario.loaded [Scenario.bitcoin]))
  /\ exists asset',
       assets (updateAsset (Scenario.loaded [Scenario.bitcoin])
                 (Scenario.refresh_event "bitcoin" 9%float [1; 2]%float)) !! 0%nat
       = Some asset'
       /\ CryptoAsset.price asset' = 9%float
       /\ length (CryptoAsset.sparkline7d asset') = 2%nat
       /\ last (CryptoAsset.sparkline7d asset') = Some 2%float
       /\ last (CryptoAsset.sparkline7d asset') <> Some 9%float.
Proof.
  split; [repeat constructor|].
  eexists. split; [reflexivity|]. repeat (split; [reflexivity|]).
  simpl. intros Heq.
  apply (f_equal (default PrimFloat.nan)) in Heq.
  by apply (float_neq_by_eqb 2%float 9%float) in Heq.
Qed.

(** C5.  An event whose sparkline7d property is present leaves the
    asset it selects with exactly that sequence as its sparkline,
    whatever the sparkline and the price were: nothing is shifted. *)
Theorem updateAsset_explicit_sparkline_replaces payload state i asset l :
  matched payload state i asset ->
  AssetUpdatePayload.sparkline7d payload = Some l ->
  exists asset',
    assets (updateAsset state payload) !! i = Some asset'
    /\ CryptoAsset.sparkline7d asset' = l.
Proof.
  intros Hm Hspark.
  exists (merge_asset asset payload). split; [by apply lookup_updated|].
  unfold merge_asset. rewrite Hspark.
  destruct (AssetUpdatePayload.price payload); simpl; by rewrite Hspark.
Qed.

Lemma updateAsset_explicit_sparkline_replaces_witness :
  exists asset',
    assets (updateAsset (Scenario.loaded [Scenario.bitcoin])
              (Scenario.refresh_event "bitcoin" 9%float
                 [9; 9; 9; 9; 9; 9; 9]%float)) !! 0%nat
    = Some asset'
    /\ CryptoAsset.sparkline7d asset' = [9; 9; 9; 9; 9; 9; 9]%float.
Proof.
  apply (updateAsset_explicit_sparkline_replaces
           (Scenario.refresh_event "bitcoin" 9%float [9; 9; 9; 9; 9; 9; 9]%float)
           (Scenario.loaded [Scenario.bitcoin]) 0%nat Scenario.bitcoin).
  - split; [reflexivity|]. split; [reflexivity|]. intros j other Hj. lia.
  - reflexivity.
Defined.

(** C6.  An event whose id is the id of no asset of the collection
    leaves the state of the store as it is: the collection, the status
    and the error. *)
Theorem updateAsset_unknown_id_noop payload state :
  (forall asset, asset ∈ assets state ->
     CryptoAsset.id asset <> AssetUpdatePayload.id payload) ->
  updateAsset state payload = state.
Proof.
  intros Hunknown. unfold updateAsset.
  rewrite findIndex_none; [reflexivity|].
  intros asset Hin. apply String.eqb_neq. by apply Hunknown.
Qed.

Lemma updateAsset_unknown_id_noop_witness :
  updateAsset (Scenario.loaded [Scenario.bitcoin; Scenario.ethereum])
              (Scenario.price_event "dogecoin" 8%float)
  = Scenario.loaded [Scenario.bitcoin; Scenario.ethereum].
Proof.
  apply (updateAsset_unknown_id_noop (Scenario.price_event "dogecoin" 8%float)
           (Scenario.loaded [Scenario.bitcoin; Scenario.ethereum])).
  intros asset Hin. simpl in Hin.
  apply elem_of_cons in Hin as [->|Hin]; [discriminate|].
  apply elem_of_cons in Hin as [->|Hin]; [discriminate|].
  by apply elem_of_nil in Hin.
Defined.

(** C10.  An event whose id is in the collection changes the selected
    asset only: the status, the error, the length of the collection and
    every other position are as before; and in the selected asset the
    properties that the event cannot carry are as before, each optional
    property takes the value of the event when present and keeps its
    own when absent, but for the sparkline, which without a sparkline7d
    in the event is either kept or shifted by a truthy price. *)
Theorem updateAsset_frame payload state i asset :
  matched payload state i asset ->
  status (updateAsset state payload) = status state
  /\ error (updateAsset state payload) = error state
  /\ length (assets (updateAsset state payload)) = length (assets state)
  /\ (forall j, j <> i ->
        assets (updateAsset state payload) !! j = assets state !! j)
  /\ exists asset',
       assets (updateAsset state payload) !! i = Some asset'
       /\ CryptoAsset.id asset' = CryptoAsset.id asset
       /\ CryptoAsset.name asset' = CryptoAsset.name asset
       /\ CryptoAsset.symbol asset' = CryptoAsset.symbol asset
       /\ CryptoAsset.logo asset' = CryptoAsset.logo asset
       /\ CryptoAsset.marketCap asset' = CryptoAsset.marketCap asset
       /\ CryptoAsset.circulatingSupply asset' = CryptoAsset.circulatingSupply asset
       /\ CryptoAsset.maxSupply asset' = CryptoAsset.maxSupply asset
       /\ CryptoAsset.price asset'
          = default (CryptoAsset.price asset) (AssetUpdatePayload.price payload)
       /\ CryptoAsset.percentChange1h asset'
          = default (CryptoAsset.percentChange1h asset)
                    (AssetUpdatePayload.percentChange1h payload)
       /\ CryptoAsset.percentChange24h asset'
          = default (CryptoAsset.percentChange24h asset)
                    (AssetUpdatePayload.percentChange24h payload)
       /\ CryptoAsset.percentChange7d asset'
          = default (CryptoAsset.percentChange7d asset)
                    (AssetUpdatePayload.percentChange7d payload)
       /\ CryptoAsset.volume24h asset'
          = default (CryptoAsset.volume24h asset)
                    (AssetUpdatePayload.volume24h payload)
       /\ (AssetUpdatePayload.sparkline7d payload = None ->
           CryptoAsset.sparkline7d asset' = CryptoAsset.sparkline7d asset
           \/ exists P, AssetUpdatePayload.price payload = Some P
                        /\ Number.ToBoolean P = true
                        /\ CryptoAsset.sparkline7d asset'
                           = drop 1 (CryptoAsset.sparkline7d asset) ++ [P]).
Proof.
  intros Hm. pose proof (lookup_updated _ _ _ _ Hm) as Hlookup.
  rewrite (updateAsset_matched _ _ _ _ Hm) in *. simpl.
  destruct Hm as (Hi & Hid & _).
  split; [reflexivity|]. split; [reflexivity|].
  split; [apply length_insert|].
  split; [intros j Hj; by apply list_lookup_insert_ne|].
  exists (merge_asset asset payload). split; [exact Hlookup|].
  unfold merge_asset.
  destruct (AssetUpdatePayload.price payload) as [p|] eqn:Hp;
    destruct (AssetUpdatePayload.sparkline7d payload) as [l|] eqn:Hs;
    try destruct (Number.ToBoolean p) eqn:Ht;
    simpl; rewrite ?Hp, ?Hs; simpl;
    repeat (split; [solve [auto]|]); intros Habsent; try discriminate;
    eauto.
Qed.

Lemma updateAsset_frame_witness :
  status (updateAsset (Scenario.loaded [Scenario.bitcoin; Scenario.ethereum])
                      (Scenario.price_event "ethereum" 4%float)) = succeeded
  /\ assets (updateAsset (Scenario.loaded [Scenario.bitcoin; Scenario.ethereum])
                         (Scenario.price_event "ethereum" 4%float)) !! 0%nat
     = Some Scenario.bitcoin.
Proof.
  destruct (updateAsset_frame (Scenario.price_event "ethereum" 4%float)
              (Scenario.loaded [Scenario.bitcoin; Scenario.ethereum])
              1%nat Scenario.ethereum)
    as (Hstatus & _ & _ & Hothers & _).
  - split; [reflexivity|]. split; [reflexivity|].
    intros [|j] other Hj Hother; [|lia].
    injection Hother as <-. discriminate.
  - split; [exact Hstatus|]. apply (Hothers 0%nat). lia.
Defined.

End MergeClaims.

(** * Properties of the message handler *)

Section MessageFacts.

Import JS MockSocket.

Context {host : Platform}.

Implicit Types (w : World) (data : string) (message : value).

(** The handler never throws: whatever the [try] block does, the
    handler returns. *)
Lemma handleMessage_returns data w :
  exists w', handleMessage data w = Normal w'.
Proof.
  unfold handleMessage. destruct (handleMessage_try data w); eauto.
Qed.

Lemma handleMessage_try_parsed data w message :
  JSON_parse data = Normal message ->
  handleMessage_try data w
  = (message_data ← get (Some message) "data";
     if ToBoolean message_data then
       e ← get message_data "e";
       if strict_eq_string e "24hrTicker" then
         s ← get message_data "s";
         assetId ← mapBinanceSymbolToAssetId s w;
         match assetId with
         | None => Normal w
         | Some assetId' =>
             if String.eqb assetId' "" then Normal w
             else
               c ← get message_data "c";
               price ← parseFloat c;
               P ← get message_data "P";
               percentChange24h ← parseFloat P;
               q ← get message_data "q";
               volume24h ← parseFloat q;
               Normal (dispatch (tickerUpdate assetId' price percentChange24h volume24h) w)
         end
       else Normal w
     else Normal w).
Proof. intros Hparse. unfold handleMessage_try. by rewrite Hparse. Qed.

Lemma strict_eq_string_true v s :
  strict_eq_string v s = true -> v = Some (Str s).
Proof.
  destruct v as [[]|]; simpl; try discriminate.
  intros Heq. apply String.eqb_eq in Heq. by subst.
Qed.

(** A frame that is not a ticker frame leaves the [try] block without
    an event: it returns at once or throws. *)
Lemma handleMessage_try_not_ticker data w message :
  JSON_parse data = Normal message ->
  (forall payload, ~ ticker message payload) ->
  handleMessage_try data w = Normal w
  \/ exists e, handleMessage_try data w = Throw e.
Proof.
  intros Hparse Hnot. rewrite (handleMessage_try_parsed _ _ _ Hparse).
  destruct message as [ | b | x | s | items | members ]; simpl;
    try (by left); try (right; by eexists).
  destruct (lookup_member "data" members) as [d|] eqn:Hd; simpl; [|by left].
  destruct d as [ | b | x | s | items | payload ]; simpl; try (by left).
  - destruct b; by left.
  - destruct (Number.ToBoolean x); by left.
  - destruct (negb (String.eqb s "")); by left.
  - destruct (strict_eq_string (lookup_member "e" payload) "24hrTicker") eqn:He;
      [|by left].
    apply strict_eq_string_true in He.
    exfalso. apply (Hnot payload). exists members. auto.
Qed.

(** The [try] block on a ticker frame. *)
Lemma handleMessage_try_ticker data w message payload :
  JSON_parse data = Normal message ->
  ticker message payload ->
  handleMessage_try data w
  = (assetId ← mapBinanceSymbolToAssetId (lookup_member "s" payload) w;
     match assetId with
     | None => Normal w
     | Some assetId' =>
         if String.eqb assetId' "" then Normal w
         else
           price ← parseFloat (lookup_member "c" payload);
           percentChange24h ← parseFloat (lookup_member "P" payload);
           volume24h ← parseFloat (lookup_member "q" payload);
           Normal (dispatch (tickerUpdate assetId' price percentChange24h volume24h) w)
     end).
Proof.
  intros Hparse (members & -> & Hdata & He).
  rewrite (handleMessage_try_parsed _ _ _ Hparse). simpl.
  rewrite Hdata. simpl. rewrite He. simpl. reflexivity.
Qed.

Lemma handleMessage_try_unresolved data w message payload :
  JSON_parse data = Normal message ->
  ticker message payload ->
  (forall assetId, ~ resolves w payload assetId) ->
  handleMessage_try data w = Normal w
  \/ exists e, handleMessage_try data w = Throw e.
Proof.
  intros Hparse Hticker Hnot.
  rewrite (handleMessage_try_ticker _ _ _ _ Hparse Hticker).
  destruct (lookup_member "s" payload) as [[ | b | x | sym | items | members ]|] eqn:Hs;
    simpl; try (right; by eexists).
  destruct (symbolToIdMap w !! toUpperCase sym) as [assetId|] eqn:Hmap;
    simpl; [|by left].
  exfalso. apply (Hnot assetId). exists sym. auto.
Qed.

(** C8.  A frame that is not JSON, or is not a ticker frame, or whose
    symbol the registry does not resolve, is dropped: the handler
    returns (it does not throw), with the world as it was or with one
    more line on the console; no event is dispatched, the store, the
    service and its transports and timers are untouched. *)
Theorem handleMessage_drops data w :
  (exists e, JSON_parse data = Throw e)
  \/ (exists message,
        JSON_parse data = Normal message
        /\ forall payload, ~ ticker message payload)
  \/ (exists message payload,
        JSON_parse data = Normal message
        /\ ticker message payload
        /\ forall assetId, ~ resolves w payload assetId) ->
  exists w',
    handleMessage data w = Normal w'
    /\ (w' = w \/ w' = swallowed w)
    /\ dispatched w' = dispatched w
    /\ store w' = store w
    /\ ws w' = ws w
    /\ initialAssets w' = initialAssets w
    /\ symbolToIdMap w' = symbolToIdMap w
    /\ sockets w' = sockets w
    /\ timers w' = timers w.
Proof.
  intros Hcase.
  assert (handleMessage_try data w = Normal w
          \/ exists e, handleMessage_try data w = Throw e) as [Hquiet|[e Hthrow]].
  { destruct Hcase as [[e He]|[(message & Hparse & Hnot)|(message & payload & Hparse & Ht & Hnot)]].
    - right. exists e. unfold handleMessage_try. by rewrite He.
    - by apply (handleMessage_try_not_ticker _ _ message).
    - by apply (handleMessage_try_unresolved _ _ message payload). }
  - exists w. unfold handleMessage. rewrite Hquiet. repeat split; auto.
  - exists (swallowed w). unfold handleMessage. rewrite Hthrow.
    repeat split; auto.
Qed.

(** The handler on a ticker frame that passes the guard on the id. *)
Lemma handleMessage_resolved data w message payload assetId :
  JSON_parse data = Normal message ->
  ticker message payload ->
  resolves w payload assetId ->
  assetId <> "" ->
  handleMessage_try data w
  = (price ← parseFloat (lookup_member "c" payload);
     percentChange24h ← parseFloat (lookup_member "P" payload);
     volume24h ← parseFloat (lookup_member "q" payload);
     Normal (dispatch (tickerUpdate assetId price percentChange24h volume24h) w)).
Proof.
  intros Hparse Hticker (sym & Hs & Hmap) Hid.
  rewrite (handleMessage_try_ticker _ _ _ _ Hparse Hticker).
  rewrite Hs. simpl. rewrite Hmap. simpl.
  apply String.eqb_neq in Hid. by rewrite Hid.
Qed.

(** On the strings of the wire format [parseFloat] returns. *)
Lemma parseFloat_string_returns s :
  parseFloat (Some (Str s)) = Normal (parseFloat_string s).
Proof. reflexivity. Qed.

End MessageFacts.

(** * The claims on the message handler *)

Section HandlerClaims.

Import JS MockSocket.

(** C7, as amended.  A ticker frame whose symbol the registry resolves
    to an id that is not the empty string, and on whose [c], [P] and
    [q] [parseFloat] returns (as it does on every string), makes the
    handler dispatch exactly one event: the id, the three parsed
    numbers under [price], [percentChange24h] and [volume24h], and no
    other property; the store runs the reducer on it.  In the
    scenario, the frame of symbol BTCUSDT with [c = 8], [P = 1.5] and
    [q = 1000] gives the event of id bitcoin with the numbers 8, 1.5
    and 1000, and the sparkline [1..7] becomes [2..8]. *)
Theorem handleMessage_emits_update :
  (forall (host : Platform) (data : string) (w : World) (message : value)
          (payload : list (string * value)) (assetId : string)
          (price pct vol : Number.t),
     JSON_parse data = Normal message ->
     ticker message payload ->
     resolves w payload assetId ->
     assetId <> "" ->
     parseFloat (lookup_member "c" payload) = Normal price ->
     parseFloat (lookup_member "P" payload) = Normal pct ->
     parseFloat (lookup_member "q" payload) = Normal vol ->
     exists w',
       handleMessage data w = Normal w'
       /\ dispatched w' = dispatched w ++ [tickerUpdate assetId price pct vol]
       /\ store w' = CryptoSlice.updateAsset (store w)
                       (tickerUpdate assetId price pct vol)
       /\ ws w' = ws w /\ sockets w' = sockets w /\ timers w' = timers w
       /\ console w' = console w)
  /\ (exists w' asset',
        handleMessage (host := Host.ascii) Scenario.frame Scenario.started = Normal w'
        /\ dispatched w' = [tickerUpdate "bitcoin" 8%float 1.5%float 1000%float]
        /\ CryptoSlice.assets (store w') = [asset']
        /\ CryptoAsset.sparkline7d asset' = [2; 3; 4; 5; 6; 7; 8]%float).
Proof.
  split.
  - intros host data w message payload assetId price pct vol
           Hparse Hticker Hresolves Hid Hc HP Hq.
    exists (dispatch (tickerUpdate assetId price pct vol) w).
    unfold handleMessage.
    rewrite (handleMessage_resolved _ _ _ _ _ Hparse Hticker Hresolves Hid).
    rewrite Hc. simpl. rewrite HP. simpl. rewrite Hq. simpl.
    repeat split; reflexivity.
  - eexists. eexists. split; [vm_compute; reflexivity|].
    repeat split; reflexivity.
Qed.

Lemma handleMessage_emits_update_witness :
  exists w',
    handleMessage (host := Host.ascii) Scenario.frame Scenario.started = Normal w'
    /\ dispatched w'
       = dispatched Scenario.started
         ++ [tickerUpdate "bitcoin" 8%float 1.5%float 1000%float]
    /\ store w' = CryptoSlice.updateAsset (store Scenario.started)
                    (tickerUpdate "bitcoin" 8%float 1.5%float 1000%float)
    /\ ws w' = ws Scenario.started
    /\ sockets w' = sockets Scenario.started
    /\ timers w' = timers Scenario.started
    /\ console w' = console Scenario.started.
Proof.
  destruct handleMessage_emits_update as [general _].
  apply (general Host.ascii Scenario.frame Scenario.started
                 Scenario.message Scenario.payload).
  - vm_compute. reflexivity.
  - exists [("data", Obj Scenario.payload)]. repeat split; reflexivity.
  - exists "BTCUSDT". split; [reflexivity | vm_compute; reflexivity].
  - discriminate.
  - vm_compute. reflexivity.
  - vm_compute. reflexivity.
  - vm_compute. reflexivity.
Defined.

(** C7 as stated fails on an asset whose id is the empty string: the
    frame is a ticker frame and the registry resolves its symbol, to
    the empty string, which the guard of the handler reads as no id;
    the handler returns without an event. *)
Lemma handleMessage_empty_id_dropped :
  JSON_parse (Platform := Host.ascii) Scenario.frame = Normal Scenario.message
  /\ ticker Scenario.message Scenario.payload
  /\ resolves (host := Host.ascii)
       (Scenario.started_on [Scenario.relabel "" "BTC" Scenario.bitcoin])
       Scenario.payload ""
  /\ mapBinanceSymbolToAssetId (host := Host.ascii) (Some (Str "BTCUSDT"))
       (Scenario.started_on [Scenario.relabel "" "BTC" Scenario.bitcoin])
     = Normal (Some "")
  /\ handleMessage (host := Host.ascii) Scenario.frame
       (Scenario.started_on [Scenario.relabel "" "BTC" Scenario.bitcoin])
     = Normal (Scenario.started_on [Scenario.relabel "" "BTC" Scenario.bitcoin])
  /\ dispatched (Scenario.started_on [Scenario.relabel "" "BTC" Scenario.bitcoin])
     = [].
Proof.
  split; [vm_compute; reflexivity|].
  split; [exists [("data", Obj Scenario.payload)]; repeat split; reflexivity|].
  split; [exists "BTCUSDT"; split; [reflexivity | vm_compute; reflexivity]|].
  split; [vm_compute; reflexivity|].
  split; [|reflexivity].
  unfold handleMessage.
  replace (handleMessage_try (host := Host.ascii) Scenario.frame
             (Scenario.started_on [Scenario.relabel "" "BTC" Scenario.bitcoin]))
    with (Normal (Scenario.started_on [Scenario.relabel "" "BTC" Scenario.bitcoin]));
    [reflexivity|].
  vm_compute. reflexivity.
Qed.

(** A ticker frame whose [c] is an object with a member [toString]:
    the symbol resolves, [parseFloat] throws, the handler swallows the
    exception and dispatches nothing. *)
Lemma handleMessage_odd_price_dropped :
  handleMessage (host := Host.ascii) Scenario.odd_price_frame Scenario.started
  = Normal (swallowed Scenario.started).
Proof. vm_compute. reflexivity. Qed.

Lemma scenario_not_ticker (payload : list (string * value)) :
  ~ ticker (Obj [("data", Obj [("e", Str "otherEvent"); ("s", Str "BTCUSDT");
                               ("c", Str "8"); ("P", Str "1.5"); ("q", Str "1000")])])
           payload.
Proof.
  intros (members & Hmsg & Hdata & He).
  injection Hmsg as <-. simpl in Hdata. injection Hdata as <-.
  simpl in He. discriminate.
Qed.

Lemma handleMessage_drops_witness :
  (exists w',
     handleMessage (host := Host.ascii) Scenario.malformed_frame Scenario.started
     = Normal w'
     /\ dispatched w' = dispatched Scenario.started
     /\ store w' = store Scenario.started
     /\ ws w' = ws Scenario.started)
  /\ (exists w',
        handleMessage (host := Host.ascii) Scenario.other_event_frame Scenario.started
        = Normal w'
        /\ dispatched w' = dispatched Scenario.started
        /\ store w' = store Scenario.started
        /\ ws w' = ws Scenario.started)
  /\ (exists w',
        handleMessage (host := Host.ascii) Scenario.ethereum_frame Scenario.started
        = Normal w'
        /\ dispatched w' = dispatched Scenario.started
        /\ store w' = store Scenario.started
        /\ ws w' = ws Scenario.started).
Proof.
  split; [|split].
  - destruct (handleMessage_drops (host := Host.ascii)
                Scenario.malformed_frame Scenario.started)
      as (w' & Hw & _ & Hd & Hs & Hws & _).
    + left. exists SyntaxError. vm_compute. reflexivity.
    + exists w'. auto.
  - destruct (handleMessage_drops (host := Host.ascii)
                Scenario.other_event_frame Scenario.started)
      as (w' & Hw & _ & Hd & Hs & Hws & _).
    + right. left. eexists. split; [vm_compute; reflexivity|].
      apply scenario_not_ticker.
    + exists w'. auto.
  - destruct (handleMessage_drops (host := Host.ascii)
                Scenario.ethereum_frame Scenario.started)
      as (w' & Hw & _ & Hd & Hs & Hws & _).
    + right. right.
      exists (Obj [("data", Obj [("e", Str "24hrTicker"); ("s", Str "ETHUSDT");
                                 ("c", Str "8"); ("P", Str "1.5"); ("q", Str "1000")])]).
      eexists. split; [vm_compute; reflexivity|].
      split; [eexists; repeat split; reflexivity|].
      intros assetId (sym & Hsym & Hmap).
      simpl in Hsym. injection Hsym as <-.
      vm_compute in Hmap. discriminate.
    + exists w'. auto.
Defined.

End HandlerClaims.

(** * Properties of the connection life cycle *)

Section ServiceFacts.

Import JS MockSocket.

Context {host : Platform}.

Implicit Types (w : World) (assets : list CryptoAsset.t).

Lemma update_socket_ws i f w : ws (update_socket i f w) = ws w.
Proof. unfold update_socket. by destruct (sockets w !! i). Qed.

Lemma update_socket_initialAssets i f w :
  initialAssets (update_socket i f w) = initialAssets w.
Proof. unfold update_socket. by destruct (sockets w !! i). Qed.

Lemma update_socket_symbolToIdMap i f w :
  symbolToIdMap (update_socket i f w) = symbolToIdMap w.
Proof. unfold update_socket. by destruct (sockets w !! i). Qed.

Lemma update_socket_timers i f w : timers (update_socket i f w) = timers w.
Proof. unfold update_socket. by destruct (sockets w !! i). Qed.

Lemma update_socket_store i f w : store (update_socket i f w) = store w.
Proof. unfold update_socket. by destruct (sockets w !! i). Qed.

Lemma update_socket_dispatched i f w :
  dispatched (update_socket i f w) = dispatched w.
Proof. unfold update_socket. by destruct (sockets w !! i). Qed.

Lemma update_socket_length i f w :
  length (sockets (update_socket i f w)) = length (sockets w).
Proof.
  unfold update_socket. destruct (sockets w !! i); [|reflexivity].
  simpl. apply length_insert.
Qed.

Lemma set_ws_sockets h w : sockets (set_ws h w) = sockets w.
Proof. reflexivity. Qed.

Lemma print_sockets lvl msg w : sockets (print lvl msg w) = sockets w.
Proof. reflexivity. Qed.

Lemma set_initialAssets_sockets l w : sockets (set_initialAssets l w) = sockets w.
Proof. reflexivity. Qed.

(** [stop] leaves the service without transport and without asset list,
    whatever the state, and touches no timer. *)
Lemma stop_frame w :
  ws (stop w) = None
  /\ initialAssets (stop w) = []
  /\ timers (stop w) = timers w
  /\ symbolToIdMap (stop w) = symbolToIdMap w
  /\ store (stop w) = store w
  /\ dispatched (stop w) = dispatched w
  /\ length (sockets (stop w)) = length (sockets w).
Proof.
  unfold stop. destruct (ws w) as [tempWs|] eqn:Hws.
  - cbn [ws initialAssets timers symbolToIdMap store dispatched
         set_initialAssets print].
    rewrite set_initialAssets_sockets, print_sockets.
    rewrite !update_socket_ws, !update_socket_timers,
      !update_socket_symbolToIdMap, !update_socket_store,
      !update_socket_dispatched, !update_socket_length.
    cbn [ws timers symbolToIdMap store dispatched set_ws].
    rewrite set_ws_sockets.
    rewrite update_socket_timers, update_socket_symbolToIdMap,
      update_socket_store, update_socket_dispatched, update_socket_length.
    repeat split; reflexivity.
  - repeat split; try reflexivity. exact Hws.
Qed.

Lemma update_socket_lookup i f w :
  sockets (update_socket i f w) !! i = f <$> sockets w !! i.
Proof.
  unfold update_socket. destruct (sockets w !! i) as [s|] eqn:Hi; simpl.
  - apply list_lookup_insert_eq. by apply lookup_lt_Some in Hi.
  - by rewrite Hi.
Qed.

(** [stop] empties the four handler slots of the transport it held and
    asks it to close with the code of a normal closure. *)
Lemma stop_detaches w tempWs s :
  ws w = Some tempWs ->
  sockets (stop w) !! tempWs = Some s ->
  onopen s = false /\ onmessage s = false /\ onerror s = false
  /\ onclose s = false
  /\ closeCalled s = Some (1000, "Client called stop").
Proof.
  intros Hws. unfold stop. rewrite Hws.
  rewrite set_initialAssets_sockets, print_sockets.
  rewrite !update_socket_lookup, set_ws_sockets, update_socket_lookup.
  destruct (sockets w !! tempWs) as [s0|]; simpl; [|discriminate].
  intros Hs. injection Hs as <-. repeat split; reflexivity.
Qed.


Lemma stop_is_idle w : idle_service (stop w).
Proof. split; apply stop_frame. Qed.


(** The registry that [start] builds. *)
Lemma start_registry assets w :
  assets <> [] ->
  symbolToIdMap (start assets w) = foldl register ∅ assets.
Proof.
  intros Hne. unfold start.
  generalize (match ws w with Some _ => stop w | None => w end). intros w0.
  destruct assets as [|a rest]; [done|].
  replace (Z.of_nat (length (a :: rest)) =? 0) with false
    by (symmetry; apply Z.eqb_neq; simpl; lia).
  match goal with |- context [String.eqb ?s ""] => destruct (String.eqb s "") end;
    [reflexivity|].
  match goal with |- context [WebSocket_construct ?u] =>
    destruct (WebSocket_construct u) end; reflexivity.
Qed.

Lemma register_lookup m asset k :
  register m asset !! k
  = if decide (registryKey asset = k) then Some (CryptoAsset.id asset) else m !! k.
Proof.
  unfold register. fold (registryKey asset).
  destruct (decide (registryKey asset = k)) as [->|Hne].
  - apply lookup_insert_eq.
  - by apply lookup_insert_ne.
Qed.

(** A key keeps its value while no asset with that key is registered. *)
Lemma registry_keeps m assets k v :
  m !! k = Some v ->
  (forall b, b ∈ assets -> registryKey b <> k) ->
  foldl register m assets !! k = Some v.
Proof.
  revert m. induction assets as [|a rest IH]; intros m Hm Hother; simpl.
  - exact Hm.
  - apply IH.
    + rewrite register_lookup.
      destruct (decide (registryKey a = k)) as [Heq|_]; [|exact Hm].
      exfalso. apply (Hother a); [by constructor | exact Heq].
    + intros b Hb. apply Hother. by constructor.
Qed.

(** The key of an asset of the list is bound to the id of the last
    asset of the list with that key. *)
Lemma registry_last m l1 a l2 :
  (forall b, b ∈ l2 -> registryKey b <> registryKey a) ->
  foldl register m (l1 ++ a :: l2) !! registryKey a = Some (CryptoAsset.id a).
Proof.
  intros Hlast. rewrite foldl_app. simpl.
  apply registry_keeps; [|exact Hlast].
  rewrite register_lookup. by rewrite decide_True.
Qed.

Lemma registry_bound m assets a :
  a ∈ assets ->
  exists b, b ∈ assets
            /\ registryKey b = registryKey a
            /\ foldl register m assets !! registryKey a = Some (CryptoAsset.id b).
Proof.
  induction assets as [|x rest IH] using rev_ind; intros Hin.
  - by apply elem_of_nil in Hin.
  - rewrite foldl_app. simpl. rewrite register_lookup.
    destruct (decide (registryKey x = registryKey a)) as [Heq|Hne].
    + exists x. split; [apply elem_of_app; right; by constructor|]. auto.
    + apply elem_of_app in Hin as [Hin|Hin].
      * destruct (IH Hin) as (b & Hb & Hkey & Hlookup).
        exists b. split; [apply elem_of_app; by left|]. auto.
      * apply list_elem_of_singleton in Hin. by subst.
Qed.

(** The handler touches the store and the console only. *)
Lemma handleMessage_try_outcome data w w' :
  handleMessage_try data w = Normal w' ->
  w' = w \/ exists payload, w' = dispatch payload w.
Proof.
  unfold handleMessage_try, mbind, completion_bind, bind.
  repeat (case_match; try discriminate);
    intros Heq; injection Heq as <-; eauto.
Qed.

Lemma handleMessage_frame data w w' :
  handleMessage data w = Normal w' ->
  ws w' = ws w
  /\ initialAssets w' = initialAssets w
  /\ symbolToIdMap w' = symbolToIdMap w
  /\ sockets w' = sockets w
  /\ timers w' = timers w.
Proof.
  unfold handleMessage.
  destruct (handleMessage_try data w) as [w0|e] eqn:Htry;
    intros Heq; injection Heq as <-.
  - apply handleMessage_try_outcome in Htry as [->|[payload ->]]; auto.
  - auto.
Qed.

Lemma delete_last {A : Type} (l : list A) (x : A) :
  delete (length l) (l ++ [x]) = l.
Proof.
  induction l as [|h rest IH]; simpl; [reflexivity|]. by rewrite IH.
Qed.



End ServiceFacts.

(** * The claims on the connection life cycle and on the registry *)

Section ServiceClaims.

Import JS MockSocket.

Context {host : Platform}.

Implicit Types (w : World) (assets : list CryptoAsset.t).

(** C3.  The close handler forgets the transport, and on an unclean
    close with a cached asset list that is not empty it hands exactly
    one callback to [setTimeout], with a delay of 5000 ms: the list of
    timers grows by that one entry, and when it fires in the state the
    handler left, it is [start] on the cached list.  On a clean close,
    or with an empty cached list, the timers are as before. *)
Theorem handleClose_schedules_reconnect event w :
  ws (handleClose event w) = None
  /\ initialAssets (handleClose event w) = initialAssets w
  /\ sockets (handleClose event w) = sockets w
  /\ (wasClean event = false -> initialAssets w <> [] ->
      timers (handleClose event w) = timers w ++ [mkTimer reconnect 5000]
      /\ step (timer_fires (length (timers w))) (handleClose event w)
         = start (initialAssets w) (set_timers (timers w) (handleClose event w)))
  /\ (wasClean event = true \/ initialAssets w = [] ->
      timers (handleClose event w) = timers w).
Proof.
  assert (handleClose event w
          = (let closed := set_ws None (print log "WebSocket connection closed. Code:" w) in
             if (0 <? Z.of_nat (length (initialAssets w))) && negb (wasClean event)
             then setTimeout reconnect 5000
                    (print log "Attempting to reconnect in 5 seconds..." closed)
             else closed)) as Hshape by reflexivity.
  rewrite Hshape. clear Hshape. cbv zeta.
  destruct (wasClean event) eqn:Hclean.
  - rewrite andb_false_r.
    repeat split; try reflexivity; discriminate.
  - rewrite andb_true_r.
    destruct (initialAssets w) as [|a rest] eqn:Hassets.
    + repeat split; try reflexivity; try done.
    + replace (0 <? Z.of_nat (length (a :: rest))) with true
        by (symmetry; apply Z.ltb_lt; simpl; lia).
      split; [reflexivity|]. split; [simpl; congruence|].
      split; [reflexivity|]. split.
      * intros _ _. split; [reflexivity|].
        cbn [step timers setTimeout set_timers print set_ws].
        rewrite lookup_app_r by lia. rewrite Nat.sub_diag. simpl.
        rewrite delete_last. by rewrite Hassets.
      * intros [Hc|Ha]; discriminate.
Qed.


(** C9, as amended.  After [start] on a list that holds an asset, a
    symbol whose upper-cased form is the key of that asset, the
    upper-cased [symbol + USDT], resolves: to the id of an asset of
    the list with that key, and to the id of the asset itself when no
    asset after it in the list has the same key. *)
Theorem resolve_case_insensitive assets w a s :
  a ∈ assets ->
  toUpperCase s = registryKey a ->
  (exists b,
     b ∈ assets
     /\ registryKey b = registryKey a
     /\ mapBinanceSymbolToAssetId (Some (Str s)) (start assets w)
        = Normal (Some (CryptoAsset.id b)))
  /\ (forall l1 l2,
        assets = l1 ++ a :: l2 ->
        (forall b, b ∈ l2 -> registryKey b <> registryKey a) ->
        mapBinanceSymbolToAssetId (Some (Str s)) (start assets w)
        = Normal (Some (CryptoAsset.id a))).
Proof.
  intros Hin Hkey.
  assert (assets <> []) as Hne by (intros ->; by apply elem_of_nil in Hin).
  unfold mapBinanceSymbolToAssetId.
  rewrite (start_registry _ _ Hne), Hkey. split.
  - destruct (registry_bound ∅ assets a Hin) as (b & Hb & Hsame & Hlookup).
    exists b. by rewrite Hlookup.
  - intros l1 l2 -> Hlast. by rewrite registry_last.
Qed.

End ServiceClaims.

(** * The life cycle in the scenario *)

Section ServiceScenarios.

Import JS MockSocket.

Lemma handleClose_schedules_reconnect_witness :
  timers (handleClose (mkCloseEvent 1006 "" false) Scenario.started)
  = timers Scenario.started ++ [mkTimer reconnect 5000]
  /\ step (host := Host.ascii) (timer_fires (length (timers Scenario.started)))
       (handleClose (mkCloseEvent 1006 "" false) Scenario.started)
     = start (host := Host.ascii) (initialAssets Scenario.started)
         (set_timers (timers Scenario.started)
            (handleClose (mkCloseEvent 1006 "" false)
               Scenario.started)).
Proof.
  destruct (handleClose_schedules_reconnect (host := Host.ascii)
              (mkCloseEvent 1006 "" false) Scenario.started)
    as (_ & _ & _ & Hunclean & _).
  apply Hunclean.
  - reflexivity.
  - vm_compute. discriminate.
Defined.




Lemma resolve_case_insensitive_witness :
  MockSocket.mapBinanceSymbolToAssetId (host := Host.ascii)
    (Some (JS.Str "btcusdt"))
    (MockSocket.start (host := Host.ascii) [Scenario.bitcoin]
       (MockSocket.fresh (Scenario.loaded [Scenario.bitcoin])))
  = JS.Normal (Some "bitcoin").
Proof.
  destruct (resolve_case_insensitive (host := Host.ascii) [Scenario.bitcoin]
              (MockSocket.fresh (Scenario.loaded [Scenario.bitcoin]))
              Scenario.bitcoin "btcusdt")
    as [_ Hlast].
  - by constructor.
  - reflexivity.
  - apply (Hlast [] []); [reflexivity|].
    intros b Hb. by apply elem_of_nil in Hb.
Defined.

(** C9 as stated fails on a list with two assets of the same key: the
    list holds an asset of symbol BTC and id bitcoin, and the symbol
    btcusdt resolves to the id of the later asset, whose symbol is
    btc. *)
Lemma resolve_later_asset_wins :
  Scenario.bitcoin ∈ [Scenario.bitcoin;
                      Scenario.relabel "wrapped-bitcoin" "btc" Scenario.bitcoin]
  /\ CryptoAsset.symbol Scenario.bitcoin = "BTC"
  /\ CryptoAsset.id Scenario.bitcoin = "bitcoin"
  /\ MockSocket.mapBinanceSymbolToAssetId (host := Host.ascii)
       (Some (JS.Str "btcusdt"))
       (Scenario.started_on
          [Scenario.bitcoin;
           Scenario.relabel "wrapped-bitcoin" "btc" Scenario.bitcoin])
     = JS.Normal (Some "wrapped-bitcoin")
  /\ JS.Normal (Some "wrapped-bitcoin") <> JS.Normal (Some "bitcoin").
Proof.
  split; [by constructor|]. split; [reflexivity|]. split; [reflexivity|].
  split; [vm_compute; reflexivity | discriminate].
Qed.

End ServiceScenarios.

(** * Further properties of the reducer: how events compose *)

Section ReducerAlgebra.

Import CryptoSlice CryptoReducer.

Implicit Types (state : CryptoState) (payload : AssetUpdatePayload.t).
Implicit Types (asset : CryptoAsset.t) (i j : nat).

Lemma merge_asset_id asset payload :
  CryptoAsset.id asset = AssetUpdatePayload.id payload ->
  CryptoAsset.id (merge_asset asset payload) = CryptoAsset.id asset.
Proof.
  intros Hid. unfold merge_asset.
  destruct (AssetUpdatePayload.price payload) as [p|];
    destruct (AssetUpdatePayload.sparkline7d payload) as [l|];
    try destruct (Number.ToBoolean p); simpl; by rewrite Hid.
Qed.

Lemma updateAsset_ids state payload :
  CryptoAsset.id <$> assets (updateAsset state payload)
  = CryptoAsset.id <$> assets state.
Proof.
  destruct (matched_or_unknown payload state) as [(i & asset & Hm)|Hnone].
  - rewrite (updateAsset_matched _ _ _ _ Hm). simpl.
    destruct Hm as (Hi & Hid & _).
    rewrite list_fmap_insert. apply list_insert_id.
    rewrite list_lookup_fmap, Hi. simpl. f_equal. symmetry. by apply merge_asset_id.
  - by rewrite updateAsset_unmatched.
Qed.

Lemma updateAsset_status_error state payload :
  status (updateAsset state payload) = status state
  /\ error (updateAsset state payload) = error state.
Proof.
  destruct (matched_or_unknown payload state) as [(i & asset & Hm)|Hnone].
  - by rewrite (updateAsset_matched _ _ _ _ Hm).
  - by rewrite updateAsset_unmatched.
Qed.

(** Whether an event selects an asset is read off the ids alone. *)
Lemma matched_ids payload state state' i asset asset' :
  CryptoAsset.id <$> assets state' = CryptoAsset.id <$> assets state ->
  assets state' !! i = Some asset' ->
  matched payload state i asset ->
  matched payload state' i asset'.
Proof.
  intros Hids Hi' (Hi & Hid & Hbefore).
  assert (forall k a b, assets state !! k = Some a -> assets state' !! k = Some b ->
                        CryptoAsset.id b = CryptoAsset.id a) as Hsame.
  { intros k a b Ha Hb.
    assert ((CryptoAsset.id <$> assets state') !! k = Some (CryptoAsset.id b)) as H1
      by (by rewrite list_lookup_fmap, Hb).
    rewrite Hids, list_lookup_fmap, Ha in H1. simpl in H1. congruence. }
  split; [exact Hi'|]. split.
  - rewrite (Hsame i asset asset' Hi Hi'). exact Hid.
  - intros j other Hj Hother.
    assert (is_Some (assets state !! j)) as [a Ha].
    { apply lookup_lt_is_Some. apply lookup_lt_Some in Hi. lia. }
    rewrite (Hsame j a other Ha Hother). by apply (Hbefore j).
Qed.

Lemma unknown_ids payload state state' :
  CryptoAsset.id <$> assets state' = CryptoAsset.id <$> assets state ->
  (forall asset, asset ∈ assets state ->
     CryptoAsset.id asset <> AssetUpdatePayload.id payload) ->
  forall asset, asset ∈ assets state' ->
    CryptoAsset.id asset <> AssetUpdatePayload.id payload.
Proof.
  intros Hids Hnone asset Hin Hid.
  assert (CryptoAsset.id asset ∈ CryptoAsset.id <$> assets state) as Hmem.
  { rewrite <- Hids. apply list_elem_of_fmap. eauto. }
  apply list_elem_of_fmap in Hmem as (other & Heq & Hother).
  apply (Hnone other Hother). congruence.
Qed.

Lemma set_assets_twice state l l' :
  set_assets (set_assets state l) l' = set_assets state l'.
Proof. reflexivity. Qed.

(** X1.  Events for different assets commute: the state after both does not
    depend on the order in which the reducer saw them. *)
Theorem updateAsset_commutes state payload payload' :
  AssetUpdatePayload.id payload <> AssetUpdatePayload.id payload' ->
  updateAsset (updateAsset state payload) payload'
  = updateAsset (updateAsset state payload') payload.
Proof.
  intros Hne.
  pose proof (updateAsset_ids state payload) as Hids.
  pose proof (updateAsset_ids state payload') as Hids'.
  destruct (matched_or_unknown payload state) as [(i & a & Hm)|Hnone];
    destruct (matched_or_unknown payload' state) as [(j & b & Hm')|Hnone'].
  - assert (i <> j) as Hij.
    { intros ->. destruct Hm as (Hi & Hid & _), Hm' as (Hj & Hid' & _).
      congruence. }
    assert (matched payload' (updateAsset state payload) j b) as Hm2.
    { apply (matched_ids payload' state _ j b b Hids); [|exact Hm'].
      rewrite (updateAsset_matched _ _ _ _ Hm). simpl.
      rewrite list_lookup_insert_ne by exact Hij. apply Hm'. }
    assert (matched payload (updateAsset state payload') i a) as Hm3.
    { apply (matched_ids payload state _ i a a Hids'); [|exact Hm].
      rewrite (updateAsset_matched _ _ _ _ Hm'). simpl.
      rewrite list_lookup_insert_ne by (intros ->; by apply Hij). apply Hm. }
    rewrite (updateAsset_matched _ _ _ _ Hm2), (updateAsset_matched _ _ _ _ Hm3).
    rewrite (updateAsset_matched _ _ _ _ Hm), (updateAsset_matched _ _ _ _ Hm').
    rewrite !set_assets_twice. simpl. f_equal.
    by apply list_insert_insert_ne.
  - rewrite (updateAsset_unmatched payload' state Hnone').
    rewrite (updateAsset_unmatched payload' (updateAsset state payload)); [reflexivity|].
    by apply (unknown_ids payload' state).
  - rewrite (updateAsset_unmatched payload state Hnone).
    rewrite (updateAsset_unmatched payload (updateAsset state payload')); [reflexivity|].
    by apply (unknown_ids payload state).
  - rewrite (updateAsset_unmatched payload state Hnone).
    by rewrite (updateAsset_unmatched payload' state Hnone'),
         (updateAsset_unmatched payload state Hnone).
Qed.

Lemma updateAsset_commutes_witness :
  updateAsset (updateAsset (Scenario.loaded [Scenario.bitcoin; Scenario.ethereum])
                           (Scenario.price_event "bitcoin" 8%float))
              (Scenario.price_event "ethereum" 4%float)
  = updateAsset (updateAsset (Scenario.loaded [Scenario.bitcoin; Scenario.ethereum])
                             (Scenario.price_event "ethereum" 4%float))
                (Scenario.price_event "bitcoin" 8%float).
Proof.
  apply (updateAsset_commutes (Scenario.loaded [Scenario.bitcoin; Scenario.ethereum])
           (Scenario.price_event "bitcoin" 8%float)
           (Scenario.price_event "ethereum" 4%float)).
  discriminate.
Defined.

Lemma merge_asset_shift asset payload P :
  AssetUpdatePayload.sparkline7d payload = None ->
  AssetUpdatePayload.price payload = Some P ->
  Number.ToBoolean P = true ->
  CryptoAsset.sparkline7d (merge_asset asset payload)
  = drop 1 (CryptoAsset.sparkline7d asset) ++ [P].
Proof.
  intros Hs Hp Ht. unfold merge_asset. by rewrite Hp, Hs, Ht.
Qed.

Lemma matched_after_update payload payload' state i asset :
  AssetUpdatePayload.id payload' = AssetUpdatePayload.id payload ->
  matched payload state i asset ->
  matched payload' (updateAsset state payload) i (merge_asset asset payload).
Proof.
  intros Hid Hm.
  assert (matched payload' state i asset) as Hm'.
  { destruct Hm as (Hi & Ha & Hb). split; [exact Hi|]. rewrite Hid. by split. }
  apply (matched_ids payload' state _ i asset); [apply updateAsset_ids | | exact Hm'].
  by apply lookup_updated.
Qed.

Lemma rolling_window_from events x i :
  Forall (fun p => AssetUpdatePayload.id p = x /\ shifts p) events ->
  forall state asset,
    assets state !! i = Some asset ->
    CryptoAsset.id asset = x ->
    (forall j other, (j < i)%nat -> assets state !! j = Some other ->
       CryptoAsset.id other <> x) ->
    CryptoAsset.sparkline7d asset <> [] ->
    exists asset',
      assets (foldl updateAsset state events) !! i = Some asset'
      /\ CryptoAsset.sparkline7d asset'
         = drop (length events) (CryptoAsset.sparkline7d asset ++ prices events)
      /\ length (CryptoAsset.sparkline7d asset')
         = length (CryptoAsset.sparkline7d asset).
Proof.
  induction 1 as [|p rest [Hid (Hs & P & Hp & Ht)] Hrest IH];
    intros state asset Hi Hx Hfirst Hne.
  - exists asset. simpl. rewrite app_nil_r. auto.
  - assert (matched p state i asset) as Hm.
    { split; [exact Hi|]. split; [congruence|].
      intros j other Hj Hother. rewrite Hid. by apply (Hfirst j). }
    pose proof (matched_after_update p p state i asset eq_refl Hm)
      as (Hi' & Hid' & Hfirst').
    pose proof (merge_asset_shift asset p P Hs Hp Ht) as Hshift.
    destruct (CryptoAsset.sparkline7d asset) as [|h t] eqn:Hold; [done|].
    simpl in Hshift. rewrite drop_0 in Hshift.
    destruct (IH (updateAsset state p) (merge_asset asset p))
      as (asset' & Ha' & Hs' & Hl').
    + exact Hi'.
    + congruence.
    + intros j other Hj Hother. rewrite <- Hid. by apply (Hfirst' j).
    + rewrite Hshift. by destruct t.
    + exists asset'. split; [exact Ha'|]. split.
      * rewrite Hs', Hshift. unfold prices. simpl. rewrite Hp. simpl.
        by rewrite <- app_assoc.
      * rewrite Hl', Hshift, length_app. simpl. lia.
Qed.

(** X2.  The sparkline is a rolling window: after a run of events for one
    asset, each with a truthy price and no sparkline, the sparkline of
    the asset is what is left of the old sparkline followed by the
    prices when as many elements as there were events are dropped from
    the front; its length is kept.  The old sparkline must not be
    empty: an empty one grows to one element. *)
Theorem updateAsset_rolling_window events state i asset :
  assets state !! i = Some asset ->
  (forall j other, (j < i)%nat -> assets state !! j = Some other ->
     CryptoAsset.id other <> CryptoAsset.id asset) ->
  CryptoAsset.sparkline7d asset <> [] ->
  Forall (fun p => AssetUpdatePayload.id p = CryptoAsset.id asset /\ shifts p)
         events ->
  exists asset',
    assets (foldl updateAsset state events) !! i = Some asset'
    /\ CryptoAsset.sparkline7d asset'
       = drop (length events) (CryptoAsset.sparkline7d asset ++ prices events)
    /\ length (CryptoAsset.sparkline7d asset')
       = length (CryptoAsset.sparkline7d asset).
Proof.
  intros Hi Hfirst Hne Hall.
  by apply (rolling_window_from events (CryptoAsset.id asset) i Hall state asset).
Qed.

Lemma updateAsset_rolling_window_witness :
  exists asset',
    assets (foldl updateAsset (Scenario.loaded [Scenario.bitcoin])
              [Scenario.price_event "bitcoin" 8%float;
               Scenario.price_event "bitcoin" 9%float]) !! 0%nat
    = Some asset'
    /\ CryptoAsset.sparkline7d asset'
       = drop 2 (CryptoAsset.sparkline7d Scenario.bitcoin ++ [8; 9]%float)
    /\ length (CryptoAsset.sparkline7d asset')
       = length (CryptoAsset.sparkline7d Scenario.bitcoin).
Proof.
  apply (updateAsset_rolling_window
           [Scenario.price_event "bitcoin" 8%float;
            Scenario.price_event "bitcoin" 9%float]
           (Scenario.loaded [Scenario.bitcoin]) 0%nat Scenario.bitcoin).
  - reflexivity.
  - intros j other Hj. lia.
  - discriminate.
  - repeat constructor; eexists; split; reflexivity.
Defined.

Lemma spread_twice asset payload :
  spread (spread asset payload) payload = spread asset payload.
Proof.
  unfold spread. simpl.
  destruct (AssetUpdatePayload.price payload),
    (AssetUpdatePayload.percentChange1h payload),
    (AssetUpdatePayload.percentChange24h payload),
    (AssetUpdatePayload.percentChange7d payload),
    (AssetUpdatePayload.volume24h payload),
    (AssetUpdatePayload.sparkline7d payload); reflexivity.
Qed.

Lemma merge_asset_no_shift asset payload :
  ~ shifts payload -> merge_asset asset payload = spread asset payload.
Proof.
  intros Hno. unfold merge_asset.
  destruct (AssetUpdatePayload.price payload) as [p|] eqn:Hp;
    destruct (AssetUpdatePayload.sparkline7d payload) as [l|] eqn:Hs;
    try reflexivity.
  destruct (Number.ToBoolean p) eqn:Ht; [|reflexivity].
  exfalso. apply Hno. split; [exact Hs|]. eauto.
Qed.

(** X3.  An event that does not shift (it carries a sparkline, or no price,
    or a price that is zero or NaN) is idempotent: seen twice, it
    leaves the state it left the first time. *)
Theorem updateAsset_idempotent state payload :
  ~ shifts payload ->
  updateAsset (updateAsset state payload) payload = updateAsset state payload.
Proof.
  intros Hno.
  destruct (matched_or_unknown payload state) as [(i & asset & Hm)|Hnone].
  - pose proof (matched_after_update payload payload state i asset eq_refl Hm) as Hm'.
    rewrite (updateAsset_matched _ _ _ _ Hm').
    rewrite (updateAsset_matched _ _ _ _ Hm). simpl.
    rewrite !merge_asset_no_shift by exact Hno.
    rewrite spread_twice. unfold set_assets. simpl. f_equal.
    apply list_insert_insert_eq.
  - by rewrite !(updateAsset_unmatched _ _ Hnone).
Qed.

Lemma updateAsset_idempotent_witness :
  updateAsset
    (updateAsset (Scenario.loaded [Scenario.bitcoin])
       (Scenario.refresh_event "bitcoin" 9%float [9; 9; 9; 9; 9; 9; 9]%float))
    (Scenario.refresh_event "bitcoin" 9%float [9; 9; 9; 9; 9; 9; 9]%float)
  = updateAsset (Scenario.loaded [Scenario.bitcoin])
      (Scenario.refresh_event "bitcoin" 9%float [9; 9; 9; 9; 9; 9; 9]%float).
Proof.
  apply (updateAsset_idempotent (Scenario.loaded [Scenario.bitcoin])
           (Scenario.refresh_event "bitcoin" 9%float [9; 9; 9; 9; 9; 9; 9]%float)).
  intros [Hs _]. discriminate Hs.
Defined.

Lemma reducer_frame state action :
  (is_fulfilled action = false ->
   CryptoAsset.id <$> assets (reducer state action) = CryptoAsset.id <$> assets state)
  /\ (is_rejected action = false -> error (reducer state action) = error state)
  /\ status (reducer state action) = status_after action (status state).
Proof.
  destruct action as [payload | | l | message | ]; simpl;
    repeat split; try reflexivity; try discriminate.
  - intros _. apply updateAsset_ids.
  - intros _. apply updateAsset_status_error.
  - apply updateAsset_status_error.
Qed.

(** X4.  Only a fulfilled fetch changes which assets the store holds: over
    any run of actions with none, the ids of the collection, in order,
    are what they were. *)
Theorem reduce_keeps_ids actions state :
  Forall (fun a => is_fulfilled a = false) actions ->
  CryptoAsset.id <$> assets (reduce actions state)
  = CryptoAsset.id <$> assets state.
Proof.
  intros Hall. revert state.
  induction Hall as [|a rest Ha Hrest IH]; intros state; [reflexivity|].
  unfold reduce in *. simpl. rewrite IH.
  by apply reducer_frame.
Qed.

Lemma reduce_keeps_ids_witness :
  CryptoAsset.id <$>
    assets (reduce [fetchAssets_pending;
                    updateAsset_action (Scenario.price_event "bitcoin" 8%float);
                    fetchAssets_rejected (Some "Network Error")]
                   (Scenario.loaded [Scenario.bitcoin; Scenario.ethereum]))
  = CryptoAsset.id <$> assets (Scenario.loaded [Scenario.bitcoin; Scenario.ethereum]).
Proof.
  apply (reduce_keeps_ids
           [fetchAssets_pending;
            updateAsset_action (Scenario.price_event "bitcoin" 8%float);
            fetchAssets_rejected (Some "Network Error")]).
  repeat constructor.
Defined.

(** X5.  The reducer never clears the error: over any run of actions with
    no rejected fetch the error is what it was, so the message of a
    failed fetch is still there after a later fetch has succeeded. *)
Theorem reduce_keeps_error actions state :
  Forall (fun a => is_rejected a = false) actions ->
  error (reduce actions state) = error state.
Proof.
  intros Hall. revert state.
  induction Hall as [|a rest Ha Hrest IH]; intros state; [reflexivity|].
  unfold reduce in *. simpl. rewrite IH.
  by apply reducer_frame.
Qed.

Lemma reduce_keeps_error_witness :
  error (reduce [fetchAssets_pending; fetchAssets_fulfilled [Scenario.bitcoin]]
                (reducer initialState (fetchAssets_rejected (Some "Network Error"))))
  = error_message "Network Error".
Proof.
  apply (reduce_keeps_error
           [fetchAssets_pending; fetchAssets_fulfilled [Scenario.bitcoin]]
           (reducer initialState (fetchAssets_rejected (Some "Network Error")))).
  repeat constructor.
Defined.

(** X6.  The status follows the thunk alone: it is the one of the latest
    fetch action, whatever merge events and other actions came after
    it. *)
Theorem reduce_status_latest_fetch actions action rest state :
  is_fetch action = true ->
  Forall (fun a => is_fetch a = false) rest ->
  status (reduce (actions ++ action :: rest) state)
  = status_after action (status state).
Proof.
  intros Hfetch Hrest. unfold reduce. rewrite foldl_app. simpl.
  set (before := foldl reducer state actions).
  assert (status (reducer before action) = status_after action (status state)) as Hnow.
  { destruct (reducer_frame before action) as (_ & _ & ->).
    by destruct action. }
  rewrite <- Hnow. generalize (reducer before action). clear Hnow.
  induction Hrest as [|a more Ha Hmore IH]; intros s; [reflexivity|].
  simpl. rewrite IH.
  destruct (reducer_frame s a) as (_ & _ & ->). by destruct a.
Qed.

Lemma reduce_status_latest_fetch_witness :
  status (reduce ([fetchAssets_pending]
                  ++ fetchAssets_fulfilled [Scenario.bitcoin]
                     :: [updateAsset_action (Scenario.price_event "bitcoin" 8%float)])
                 initialState)
  = status_after (fetchAssets_fulfilled [Scenario.bitcoin]) (status initialState).
Proof.
  apply (reduce_status_latest_fetch [fetchAssets_pending]
           (fetchAssets_fulfilled [Scenario.bitcoin])
           [updateAsset_action (Scenario.price_event "bitcoin" 8%float)]
           initialState).
  - reflexivity.
  - repeat constructor.
Defined.

End ReducerAlgebra.

(** * Further properties of the service: start, restart, reconnection *)

Section StartFacts.

Import JS MockSocket Session.

Context {host : Platform}.

Implicit Types (w : World) (assets : list CryptoAsset.t).

Lemma torn_down_frame w :
  ws (torn_down w) = None
  /\ timers (torn_down w) = timers w
  /\ symbolToIdMap (torn_down w) = symbolToIdMap w
  /\ store (torn_down w) = store w
  /\ dispatched (torn_down w) = dispatched w
  /\ length (sockets (torn_down w)) = length (sockets w).
Proof.
  unfold torn_down. destruct (ws w) eqn:Hws.
  - pose proof (stop_frame w) as (? & ? & ? & ? & ? & ? & ?).
    repeat split; assumption.
  - repeat split; auto.
Qed.

Lemma append_empty (s t : string) : s +:+ t = "" -> t = "".
Proof. destruct s; simpl; [auto | discriminate]. Qed.

Lemma streamName_not_empty (asset : CryptoAsset.t) : streamName asset <> "".
Proof. intros Heq. apply append_empty in Heq. discriminate. Qed.

(** No stream name is dropped by the filter of [start]. *)
Lemma streams_all_kept assets :
  List.filter (fun stream => negb (String.eqb stream "")) (map streamName assets)
  = map streamName assets.
Proof.
  induction assets as [|a rest IH]; simpl; [reflexivity|].
  destruct (String.eqb (streamName a) "") eqn:Heq.
  - apply String.eqb_eq in Heq. by apply streamName_not_empty in Heq.
  - simpl. by rewrite IH.
Qed.

Lemma concat_not_empty (sep x : string) (rest : list string) :
  x <> "" -> String.concat sep (x :: rest) <> "".
Proof.
  intros Hx. destruct rest as [|y more]; simpl; [exact Hx|].
  destruct x; [done | discriminate].
Qed.

(** [start] on a list that is not empty, statement by statement: the
    second exit is never taken, the constructor is always reached. *)
Lemma start_shape assets w :
  assets <> [] ->
  start assets w
  = let w1 := set_symbolToIdMap (foldl register ∅ assets)
                (set_initialAssets assets (torn_down w)) in
    let w2 := print log ("Connecting to Binance WebSocket: " +:+ streamsUrl assets) w1 in
    match WebSocket_construct (streamsUrl assets) with
    | None =>
        set_ws (Some (length (sockets w2)))
               (set_sockets (sockets w2 ++ [opened assets]) w2)
    | Some _ => print error "Failed to create WebSocket:" w2
    end.
Proof.
  intros Hne. unfold start. fold (torn_down w).
  destruct assets as [|a rest]; [done|].
  replace (Z.of_nat (length (a :: rest)) =? 0) with false
    by (symmetry; apply Z.eqb_neq; simpl; lia).
  rewrite streams_all_kept.
  replace (String.eqb (String.concat "/" (map streamName (a :: rest))) "")
    with false; [reflexivity|].
  symmetry. apply String.eqb_neq. simpl map.
  apply concat_not_empty, streamName_not_empty.
Qed.

Lemma start_empty_shape w :
  start [] w
  = print warn
      "No assets provided to BinanceWebSocketService. WebSocket connection not started."
      (torn_down w).
Proof. reflexivity. Qed.

Lemma start_opens_one_transport_shape assets w :
  assets <> [] ->
  initialAssets (start assets w) = assets
  /\ symbolToIdMap (start assets w) = foldl register ∅ assets.
Proof.
  intros Hne. rewrite (start_shape _ _ Hne). cbv zeta.
  destruct (WebSocket_construct (streamsUrl assets)); split; reflexivity.
Qed.

(** X7.  Starting on the empty list opens nothing: the service has no
    transport afterwards (the one it had is stopped), no transport is
    created, no timer is set, and the registry is not rebuilt: the
    entries of the earlier session stay. *)
Theorem start_empty_opens_nothing w :
  ws (start [] w) = None
  /\ length (sockets (start [] w)) = length (sockets w)
  /\ timers (start [] w) = timers w
  /\ symbolToIdMap (start [] w) = symbolToIdMap w
  /\ store (start [] w) = store w
  /\ dispatched (start [] w) = dispatched w
  /\ (forall i s, ws w = Some i -> sockets (start [] w) !! i = Some s ->
        detached s /\ closeCalled s = Some (1000, "Client called stop")).
Proof.
  rewrite start_empty_shape.
  pose proof (torn_down_frame w) as (Hws & Ht & Hm & Hs & Hd & Hl).
  cbn [ws sockets timers symbolToIdMap store dispatched print].
  repeat (split; [assumption|]).
  intros i s Hi Hs'. unfold torn_down in Hs'. rewrite Hi in Hs'.
  destruct (stop_detaches w i s Hi Hs') as (? & ? & ? & ? & ?).
  by repeat split.
Qed.

(** X8.  Starting on a list that is not empty always reaches the
    constructor, with the base URL followed by the stream names of all
    the assets, joined by a slash.  When the constructor returns, the
    new transport is the last of the world, holds the four handlers,
    and is the handle of the service; when it throws, the service has
    no transport.  Either way the list is cached and the timers are
    untouched. *)
Theorem start_opens_one_transport assets w :
  assets <> [] ->
  initialAssets (start assets w) = assets
  /\ timers (start assets w) = timers w
  /\ store (start assets w) = store w
  /\ match WebSocket_construct (streamsUrl assets) with
     | None =>
         ws (start assets w) = Some (length (sockets w))
         /\ sockets (start assets w) = sockets (torn_down w) ++ [opened assets]
     | Some _ =>
         ws (start assets w) = None
         /\ sockets (start assets w) = sockets (torn_down w)
     end.
Proof.
  intros Hne. rewrite (start_shape _ _ Hne). cbv zeta.
  pose proof (torn_down_frame w) as (Hws & Ht & Hm & Hs & Hd & Hl).
  destruct (WebSocket_construct (streamsUrl assets));
    cbn [ws sockets timers initialAssets store print set_ws set_sockets
         set_symbolToIdMap set_initialAssets];
    repeat split; auto.
Qed.

End StartFacts.

Section SessionFacts.

Import JS MockSocket Session.

Context {host : Platform}.

Implicit Types (w : World) (assets : list CryptoAsset.t).

Lemma registry_from m assets k v :
  foldl register m assets !! k = Some v ->
  m !! k = Some v
  \/ exists a, a ∈ assets /\ registryKey a = k /\ CryptoAsset.id a = v.
Proof.
  revert m. induction assets as [|x rest IH]; intros m; simpl; [by left|].
  intros Hlookup. destruct (IH _ Hlookup) as [Hm|(a & Ha & Hk & Hv)].
  - rewrite register_lookup in Hm.
    destruct (decide (registryKey x = k)) as [Hx|_]; [|by left].
    right. exists x. split; [by constructor|]. split; [exact Hx | congruence].
  - right. exists a. split; [by constructor | auto].
Qed.

(** X9.  The registry after [start] on a list that is not empty holds the
    keys of the assets of the list and nothing else, each bound to the
    id of an asset with that key: no entry of an earlier session
    survives. *)
Theorem start_registry_exact assets w k :
  assets <> [] ->
  (is_Some (symbolToIdMap (start assets w) !! k)
   <-> exists a, a ∈ assets /\ registryKey a = k)
  /\ (forall v, symbolToIdMap (start assets w) !! k = Some v ->
        exists a, a ∈ assets /\ registryKey a = k /\ CryptoAsset.id a = v).
Proof.
  intros Hne. rewrite (start_registry _ _ Hne).
  assert (forall v, foldl register ∅ assets !! k = Some v ->
            exists a, a ∈ assets /\ registryKey a = k /\ CryptoAsset.id a = v)
    as Hfrom.
  { intros v Hv. destruct (registry_from _ _ _ _ Hv) as [Hempty|Hfound];
      [by rewrite lookup_empty in Hempty | exact Hfound]. }
  split; [split|exact Hfrom].
  - intros [v Hv]. destruct (Hfrom v Hv) as (a & Ha & Hk & _). eauto.
  - intros (a & Ha & <-).
    destruct (registry_bound ∅ assets a Ha) as (b & _ & _ & Hlookup). eauto.
Qed.

Lemma update_socket_lookup_ne i j f w :
  i <> j -> sockets (update_socket i f w) !! j = sockets w !! j.
Proof.
  intros Hne. unfold update_socket. destruct (sockets w !! i); [|reflexivity].
  simpl. by apply list_lookup_insert_ne.
Qed.

Lemma stop_sockets_other w i j :
  ws w = Some i -> j <> i -> sockets (stop w) !! j = sockets w !! j.
Proof.
  intros Hws Hne. unfold stop. rewrite Hws.
  rewrite set_initialAssets_sockets, print_sockets.
  rewrite !update_socket_lookup_ne by congruence.
  rewrite set_ws_sockets. by rewrite update_socket_lookup_ne by congruence.
Qed.

Lemma stop_sockets_idle w : ws w = None -> sockets (stop w) = sockets w.
Proof. intros Hws. unfold stop. by rewrite Hws. Qed.

Lemma stop_consistent w : consistent w -> consistent (stop w).
Proof.
  intros [Hhandle Hclosed]. split.
  - intros i Hi. pose proof (stop_frame w) as (Hnone & _). congruence.
  - intros j s Hj Hc. destruct (ws w) as [i|] eqn:Hws.
    + destruct (decide (j = i)) as [->|Hne].
      * destruct (stop_detaches w i s Hws Hj) as (? & ? & ? & ? & _).
        by repeat split.
      * rewrite (stop_sockets_other w i j Hws Hne) in Hj. by apply (Hclosed j).
    + rewrite (stop_sockets_idle w Hws) in Hj. by apply (Hclosed j).
Qed.

Lemma torn_down_consistent w : consistent w -> consistent (torn_down w).
Proof.
  intros Hc. unfold torn_down. destruct (ws w); [by apply stop_consistent | exact Hc].
Qed.

Lemma consistent_no_handle w w' :
  ws w' = None -> sockets w' = sockets w -> consistent w -> consistent w'.
Proof.
  intros Hws Hs [_ Hclosed]. split.
  - intros i Hi. congruence.
  - rewrite Hs. exact Hclosed.
Qed.

Lemma consistent_same w w' :
  ws w' = ws w -> sockets w' = sockets w -> consistent w -> consistent w'.
Proof.
  intros Hws Hs [Hhandle Hclosed]. split; rewrite ?Hws, Hs; assumption.
Qed.

Lemma start_consistent assets w : consistent w -> consistent (start assets w).
Proof.
  intros Hc. apply torn_down_consistent in Hc.
  pose proof (torn_down_frame w) as (Hws & _).
  destruct assets as [|a rest].
  - rewrite start_empty_shape. by apply (consistent_no_handle (torn_down w)).
  - rewrite start_shape by done. cbv zeta.
    destruct (WebSocket_construct (streamsUrl (a :: rest))).
    + by apply (consistent_no_handle (torn_down w)).
    + destruct Hc as [_ Hclosed]. split.
      * cbn [ws sockets set_ws set_sockets print set_symbolToIdMap set_initialAssets].
        intros i Hi. injection Hi as <-.
        exists (opened (a :: rest)). split.
        -- rewrite lookup_app_r by lia. by rewrite Nat.sub_diag.
        -- by repeat split.
      * cbn [ws sockets set_ws set_sockets print set_symbolToIdMap set_initialAssets].
        intros j s Hj Hcl.
        destruct (decide (j < length (sockets (torn_down w)))%nat) as [Hlt|Hge].
        -- rewrite lookup_app_l in Hj by exact Hlt. by apply (Hclosed j).
        -- rewrite lookup_app_r in Hj by lia.
           destruct (j - length (sockets (torn_down w)))%nat; simpl in Hj;
             [|discriminate].
           injection Hj as <-. simpl in Hcl. by destruct Hcl.
Qed.

Lemma handleClose_frame event w :
  ws (handleClose event w) = None
  /\ sockets (handleClose event w) = sockets w
  /\ store (handleClose event w) = store w
  /\ dispatched (handleClose event w) = dispatched w.
Proof.
  unfold handleClose.
  match goal with |- context [if ?b then _ else _] => destruct b end;
    repeat split; reflexivity.
Qed.

Lemma step_consistent ev w : consistent w -> consistent (step ev w).
Proof.
  intros Hc. destruct ev as [k | i | i data | i isErrorEvent | i event]; simpl.
  - destruct (timers w !! k) as [[[] ms]|]; [|exact Hc].
    simpl. apply start_consistent. by apply (consistent_same w).
  - destruct (sockets w !! i) as [s|]; [|exact Hc].
    destruct (onopen s); [|exact Hc]. by apply (consistent_same w).
  - destruct (sockets w !! i) as [s|]; [|exact Hc].
    destruct (onmessage s); [|exact Hc].
    destruct (handleMessage data w) as [w'|e] eqn:Hmsg.
    + apply handleMessage_frame in Hmsg as (Hws & _ & _ & Hs & _).
      by apply (consistent_same w).
    + by apply (consistent_same w).
  - destruct (sockets w !! i) as [s|]; [|exact Hc].
    destruct (onerror s); [|exact Hc].
    unfold handleError. destruct isErrorEvent; by apply (consistent_same w).
  - destruct (sockets w !! i) as [s|]; [|exact Hc].
    destruct (onclose s); [|exact Hc].
    pose proof (handleClose_frame event w) as (Hws & Hs & _).
    by apply (consistent_no_handle w).
Qed.

Lemma session_consistent actions w :
  consistent w -> consistent (session actions w).
Proof.
  revert w. induction actions as [|a rest IH]; intros w Hc; [exact Hc|].
  unfold session in *. simpl. apply IH.
  destruct a as [assets | | ev]; simpl.
  - by apply start_consistent.
  - by apply stop_consistent.
  - by apply step_consistent.
Qed.

(** X12.  Whatever the owner calls and the event loop delivers, the handle
    of the service is a transport that holds its handlers and was not
    asked to close, and a transport that was asked to close holds no
    handler: an event of such a transport changes nothing, neither the
    service nor the store. *)
Theorem closed_transport_is_silent actions w :
  consistent w ->
  consistent (session actions w)
  /\ forall j s ev,
       sockets (session actions w) !! j = Some s ->
       is_Some (closeCalled s) ->
       transport_of ev = Some j ->
       step ev (session actions w) = session actions w.
Proof.
  intros Hc. apply (session_consistent actions) in Hc.
  split; [exact Hc|].
  intros j s ev Hj Hclosed Hev.
  destruct Hc as [_ Hdet]. destruct (Hdet j s Hj Hclosed) as (Ho & Hm & He & Hcl).
  destruct ev as [k | i | i data | i isErrorEvent | i event]; simpl in Hev;
    try discriminate; injection Hev as ->; simpl; rewrite Hj;
    by rewrite ?Ho, ?Hm, ?He, ?Hcl.
Qed.

End SessionFacts.

Section RestartFacts.

Import JS MockSocket Session.

Context {host : Platform}.

Implicit Types (w : World) (assets : list CryptoAsset.t).

Lemma start_sockets assets w :
  sockets (start assets w) = sockets (torn_down w)
  \/ sockets (start assets w) = sockets (torn_down w) ++ [opened assets].
Proof.
  destruct assets as [|a rest].
  - rewrite start_empty_shape. by left.
  - rewrite start_shape by done. cbv zeta.
    destruct (WebSocket_construct (streamsUrl (a :: rest))); [by left | by right].
Qed.

Lemma start_ws assets w :
  ws (start assets w) = None
  \/ ws (start assets w) = Some (length (sockets w)).
Proof.
  pose proof (torn_down_frame w) as (_ & _ & _ & _ & _ & Hlen).
  destruct assets as [|a rest].
  - rewrite start_empty_shape. left. apply torn_down_frame.
  - rewrite start_shape by done. cbv zeta.
    destruct (WebSocket_construct (streamsUrl (a :: rest))).
    + left. apply torn_down_frame.
    + right. simpl. by rewrite Hlen.
Qed.

(** X10.  [start] on a running service tears the running transport down
    first, whatever the list: the transport loses its four handlers,
    is asked to close with the code 1000, and is no longer the handle
    of the service. *)
Theorem start_tears_down_previous assets w i :
  ws w = Some i ->
  is_Some (sockets w !! i) ->
  ws (start assets w) <> Some i
  /\ exists s,
       sockets (start assets w) !! i = Some s
       /\ detached s
       /\ closeCalled s = Some (1000, "Client called stop").
Proof.
  intros Hws Hi. apply lookup_lt_is_Some in Hi.
  split.
  - destruct (start_ws assets w) as [->| ->]; [discriminate|].
    intros Heq. injection Heq as Heq. lia.
  - assert (is_Some (sockets (stop w) !! i)) as [s Hs].
    { apply lookup_lt_is_Some.
      pose proof (stop_frame w) as (_ & _ & _ & _ & _ & _ & Hlen). lia. }
    exists s.
    destruct (stop_detaches w i s Hws Hs) as (? & ? & ? & ? & ?).
    split; [|by repeat split].
    assert (sockets (torn_down w) = sockets (stop w)) as Htd
      by (unfold torn_down; by rewrite Hws).
    destruct (start_sockets assets w) as [-> | ->]; rewrite Htd; [exact Hs|].
    rewrite lookup_app_l; [exact Hs | by apply lookup_lt_Some in Hs].
Qed.

Lemma handleClose_unclean event w :
  wasClean event = false ->
  initialAssets w <> [] ->
  handleClose event w
  = setTimeout reconnect 5000
      (print log "Attempting to reconnect in 5 seconds..."
         (set_ws None (print log "WebSocket connection closed. Code:" w))).
Proof.
  intros Hclean Hne. unfold handleClose. rewrite Hclean.
  cbn [initialAssets set_ws print].
  destruct (initialAssets w) as [|a rest]; [done|].
  replace (0 <? Z.of_nat (length (a :: rest))) with true
    by (symmetry; apply Z.ltb_lt; simpl; lia).
  reflexivity.
Qed.

Lemma torn_down_idle w : ws w = None -> torn_down w = w.
Proof. intros Hws. unfold torn_down. by rewrite Hws. Qed.

(** X11.  Reconnection restores the session.  After [start] on a list that
    is not empty (the constructor accepting the URL), an unclean close
    and the expiry of the timer it set leave the service with a new
    transport for the same URL, the last of the world, with the same
    registry and the same cached list, and with the timers as they
    were before the close. *)
Theorem reconnect_restores_session assets w event :
  assets <> [] ->
  WebSocket_construct (streamsUrl assets) = None ->
  wasClean event = false ->
  ws (step (timer_fires (length (timers (start assets w))))
        (handleClose event (start assets w)))
  = Some (length (sockets (start assets w)))
  /\ sockets (step (timer_fires (length (timers (start assets w))))
                (handleClose event (start assets w)))
     = sockets (start assets w) ++ [opened assets]
  /\ symbolToIdMap (step (timer_fires (length (timers (start assets w))))
                      (handleClose event (start assets w)))
     = symbolToIdMap (start assets w)
  /\ initialAssets (step (timer_fires (length (timers (start assets w))))
                      (handleClose event (start assets w)))
     = assets
  /\ timers (step (timer_fires (length (timers (start assets w))))
               (handleClose event (start assets w)))
     = timers (start assets w).
Proof.
  intros Hne Hok Hunclean.
  pose proof (start_opens_one_transport_shape assets w Hne) as (Hassets & Hmap).
  set (w1 := start assets w) in *.
  rewrite (handleClose_unclean event w1 Hunclean) by (by rewrite Hassets).
  cbn [step timers setTimeout set_timers print set_ws].
  rewrite lookup_app_r by lia. rewrite Nat.sub_diag. cbn [lookup list_lookup callback].
  rewrite delete_last. cbn [run_callback]. unfold setTimeout.
  cbn [initialAssets set_timers print set_ws].
  rewrite Hassets.
  rewrite (start_shape assets _ Hne). cbv zeta. rewrite Hok.
  rewrite torn_down_idle by reflexivity.
  cbn [ws sockets symbolToIdMap initialAssets timers set_ws set_sockets print
       set_symbolToIdMap set_initialAssets set_timers].
  by rewrite Hmap.
Qed.

End RestartFacts.

Section FeedFacts.

Import JS CryptoSlice MockSocket Session.

Context {host : Platform}.

Implicit Types (w : World) (assets : list CryptoAsset.t).

Lemma tickerUpdate_shaped assetId price pct vol :
  ticker_shaped (tickerUpdate assetId price pct vol).
Proof. unfold ticker_shaped. simpl. repeat split; eauto. Qed.

(** What the handler does to the store: nothing, or one event of the
    ticker shape through the reducer. *)
Lemma handleMessage_store data w w' :
  handleMessage data w = Normal w' ->
  (store w' = store w /\ dispatched w' = dispatched w)
  \/ exists payload,
       ticker_shaped payload
       /\ store w' = updateAsset (store w) payload
       /\ dispatched w' = dispatched w ++ [payload].
Proof.
  unfold handleMessage.
  destruct (handleMessage_try data w) as [w0|e] eqn:Htry;
    intros Heq; injection Heq as <-; [|by left].
  revert Htry. unfold handleMessage_try, mbind, completion_bind, bind.
  repeat (case_match; try discriminate);
    intros Heq; injection Heq as <-; try (by left).
  right. eexists. split; [apply tickerUpdate_shaped|]. split; reflexivity.
Qed.

Lemma start_store assets w :
  store (start assets w) = store w /\ dispatched (start assets w) = dispatched w.
Proof.
  pose proof (torn_down_frame w) as (_ & _ & _ & Hs & Hd & _).
  destruct assets as [|a rest].
  - rewrite start_empty_shape. by split.
  - rewrite start_shape by done. cbv zeta.
    destruct (WebSocket_construct (streamsUrl (a :: rest))); by split.
Qed.

Lemma act_store a w :
  (store (act a w) = store w /\ dispatched (act a w) = dispatched w)
  \/ exists payload,
       ticker_shaped payload
       /\ store (act a w) = updateAsset (store w) payload
       /\ dispatched (act a w) = dispatched w ++ [payload].
Proof.
  destruct a as [assets | | ev]; simpl.
  - left. apply start_store.
  - left. pose proof (stop_frame w) as (_ & _ & _ & _ & Hs & Hd & _). by split.
  - destruct ev as [k | i | i data | i isErrorEvent | i event]; simpl.
    + destruct (timers w !! k) as [[[] ms]|]; [|by left].
      simpl. left.
      match goal with
      | |- context [start ?l ?x] => destruct (start_store l x) as [-> ->]
      end.
      by split.
    + destruct (sockets w !! i) as [s|]; [|by left]. destruct (onopen s); by left.
    + destruct (sockets w !! i) as [s|]; [|by left].
      destruct (onmessage s); [|by left].
      destruct (handleMessage data w) as [w'|e] eqn:Hmsg; [|by left].
      by apply handleMessage_store in Hmsg.
    + destruct (sockets w !! i) as [s|]; [|by left].
      destruct (onerror s); [|by left].
      unfold handleError. destruct isErrorEvent; by left.
    + destruct (sockets w !! i) as [s|]; [|by left].
      destruct (onclose s); [|by left].
      left. pose proof (handleClose_frame event w) as (_ & _ & Hs & Hd). by split.
Qed.

Lemma session_store actions w :
  exists events,
    Forall ticker_shaped events
    /\ dispatched (session actions w) = dispatched w ++ events
    /\ store (session actions w) = foldl updateAsset (store w) events.
Proof.
  revert w. induction actions as [|a rest IH]; intros w.
  - exists []. simpl. by rewrite app_nil_r.
  - unfold session in *. simpl.
    destruct (IH (act a w)) as (events & Hshape & Hd & Hs).
    destruct (act_store a w) as [[Hstore Hdisp]|(p & Hp & Hstore & Hdisp)].
    + exists events. rewrite Hd, Hs, Hstore, Hdisp. auto.
    + exists (p :: events). rewrite Hd, Hs, Hstore, Hdisp.
      split; [by constructor|]. split; [by rewrite <- app_assoc | reflexivity].
Qed.

Lemma updateAsset_keeps_window state payload :
  AssetUpdatePayload.sparkline7d payload = None ->
  Forall (fun a => length (CryptoAsset.sparkline7d a) = 7%nat) (assets state) ->
  Forall (fun a => length (CryptoAsset.sparkline7d a) = 7%nat)
         (assets (updateAsset state payload)).
Proof.
  intros Hnone Hinv.
  destruct (matched_or_unknown payload state) as [(i & asset & Hm)|Hunknown].
  - rewrite (updateAsset_matched _ _ _ _ Hm). simpl.
    apply Forall_insert; [exact Hinv|].
    apply merge_asset_length; [|intros l Hl; congruence].
    destruct Hm as (Hi & _). by apply (Forall_lookup_1 _ _ _ _ Hinv Hi).
  - by rewrite updateAsset_unmatched.
Qed.

Lemma fold_ticker_events events state :
  Forall ticker_shaped events ->
  CryptoAsset.id <$> assets (foldl updateAsset state events)
  = CryptoAsset.id <$> assets state
  /\ status (foldl updateAsset state events) = status state
  /\ CryptoSlice.error (foldl updateAsset state events) = CryptoSlice.error state
  /\ (Forall (fun a => length (CryptoAsset.sparkline7d a) = 7%nat) (assets state) ->
      Forall (fun a => length (CryptoAsset.sparkline7d a) = 7%nat)
             (assets (foldl updateAsset state events))).
Proof.
  intros Hall. revert state.
  induction Hall as [|p rest Hp Hrest IH]; intros state; simpl; [auto|].
  destruct (IH (updateAsset state p)) as (Hids & Hst & Herr & Hwin).
  destruct (updateAsset_status_error state p) as [Hst' Herr'].
  rewrite Hids, Hst, Herr, updateAsset_ids, Hst', Herr'.
  repeat split; try reflexivity.
  intros Hinv. apply Hwin. apply updateAsset_keeps_window; [|exact Hinv].
  apply Hp.
Qed.

(** X13.  The feed cannot damage the store.  Whatever the owner calls and
    the event loop delivers, the service dispatches events of the
    ticker shape only, and the store is the one the reducer makes of
    them: the assets are the same ones in the same order, the status
    and the error are untouched, and sparklines of 7 elements stay
    sparklines of 7 elements. *)
Theorem session_keeps_store_shape actions w :
  (exists events,
     Forall ticker_shaped events
     /\ dispatched (session actions w) = dispatched w ++ events
     /\ store (session actions w) = foldl updateAsset (store w) events)
  /\ CryptoAsset.id <$> assets (store (session actions w))
     = CryptoAsset.id <$> assets (store w)
  /\ status (store (session actions w)) = status (store w)
  /\ CryptoSlice.error (store (session actions w)) = CryptoSlice.error (store w)
  /\ (Forall (fun a => length (CryptoAsset.sparkline7d a) = 7%nat)
             (assets (store w)) ->
      Forall (fun a => length (CryptoAsset.sparkline7d a) = 7%nat)
             (assets (store (session actions w)))).
Proof.
  destruct (session_store actions w) as (events & Hshape & Hd & Hs).
  split; [eauto|].
  rewrite Hs. by apply fold_ticker_events.
Qed.

(** X14.  A ticker whose price parses to zero or to NaN still reaches the
    store: the price of the asset becomes that number, and only the
    sparkline is spared. *)
Theorem ticker_falsy_price_overwrites data w message payload assetId P pct vol
    i asset :
  JSON_parse data = Normal message ->
  ticker message payload ->
  resolves w payload assetId ->
  assetId <> "" ->
  parseFloat (lookup_member "c" payload) = Normal P ->
  parseFloat (lookup_member "P" payload) = Normal pct ->
  parseFloat (lookup_member "q" payload) = Normal vol ->
  Number.ToBoolean P = false ->
  matched (tickerUpdate assetId P pct vol) (store w) i asset ->
  exists w' asset',
    handleMessage data w = Normal w'
    /\ assets (store w') !! i = Some asset'
    /\ CryptoAsset.price asset' = P
    /\ CryptoAsset.sparkline7d asset' = CryptoAsset.sparkline7d asset.
Proof.
  intros Hparse Hticker Hresolves Hid Hc HP Hq Hfalsy Hm.
  exists (dispatch (tickerUpdate assetId P pct vol) w).
  exists (merge_asset asset (tickerUpdate assetId P pct vol)).
  split.
  - unfold handleMessage.
    rewrite (handleMessage_resolved _ _ _ _ _ Hparse Hticker Hresolves Hid).
    rewrite Hc. simpl. rewrite HP. simpl. by rewrite Hq.
  - split; [by apply lookup_updated|].
    unfold merge_asset. simpl. by rewrite Hfalsy.
Qed.

End FeedFacts.

(** * The further properties of the service, in the scenario *)

Section SessionExamples.

Import JS CryptoSlice MockSocket Session.

Lemma start_opens_one_transport_witness :
  ws (start (host := Host.ascii) [Scenario.bitcoin]
        (fresh (Scenario.loaded [Scenario.bitcoin])))
  = Some 0%nat
  /\ sockets (start (host := Host.ascii) [Scenario.bitcoin]
                (fresh (Scenario.loaded [Scenario.bitcoin])))
     = [mkWebSocket "wss://stream.binance.com:9443/stream?streams=btcusdt@ticker"
          true true true true None].
Proof.
  destruct (start_opens_one_transport (host := Host.ascii) [Scenario.bitcoin]
              (fresh (Scenario.loaded [Scenario.bitcoin])))
    as (_ & _ & _ & Hopen).
  - discriminate.
  - exact Hopen.
Defined.

Lemma start_registry_exact_witness :
  (is_Some (symbolToIdMap
              (start (host := Host.ascii) [Scenario.ethereum] Scenario.started)
              !! "ETHUSDT")
   <-> exists a, a ∈ [Scenario.ethereum]
                 /\ registryKey (host := Host.ascii) a = "ETHUSDT")
  /\ (forall v,
        symbolToIdMap
          (start (host := Host.ascii) [Scenario.ethereum] Scenario.started)
          !! "ETHUSDT" = Some v ->
        exists a, a ∈ [Scenario.ethereum]
                  /\ registryKey (host := Host.ascii) a = "ETHUSDT"
                  /\ CryptoAsset.id a = v).
Proof.
  apply (start_registry_exact (host := Host.ascii) [Scenario.ethereum]
           Scenario.started "ETHUSDT").
  discriminate.
Defined.

Lemma start_tears_down_previous_witness :
  ws (start (host := Host.ascii) [Scenario.ethereum] Scenario.started) <> Some 0%nat
  /\ exists s,
       sockets (start (host := Host.ascii) [Scenario.ethereum] Scenario.started)
         !! 0%nat = Some s
       /\ detached s
       /\ closeCalled s = Some (1000, "Client called stop").
Proof.
  apply (start_tears_down_previous (host := Host.ascii) [Scenario.ethereum]
           Scenario.started 0%nat).
  - reflexivity.
  - eexists. reflexivity.
Defined.

Lemma reconnect_restores_session_witness :
  ws (step (host := Host.ascii)
        (timer_fires (length (timers Scenario.started)))
        (handleClose Examples.abnormal_closure Scenario.started))
  = Some (length (sockets Scenario.started))
  /\ sockets (step (host := Host.ascii)
                (timer_fires (length (timers Scenario.started)))
                (handleClose Examples.abnormal_closure Scenario.started))
     = sockets Scenario.started ++ [opened (host := Host.ascii) [Scenario.bitcoin]]
  /\ symbolToIdMap (step (host := Host.ascii)
                      (timer_fires (length (timers Scenario.started)))
                      (handleClose Examples.abnormal_closure Scenario.started))
     = symbolToIdMap Scenario.started
  /\ initialAssets (step (host := Host.ascii)
                      (timer_fires (length (timers Scenario.started)))
                      (handleClose Examples.abnormal_closure Scenario.started))
     = [Scenario.bitcoin]
  /\ timers (step (host := Host.ascii)
               (timer_fires (length (timers Scenario.started)))
               (handleClose Examples.abnormal_closure Scenario.started))
     = timers Scenario.started.
Proof.
  apply (reconnect_restores_session (host := Host.ascii) [Scenario.bitcoin]
           (fresh (Scenario.loaded [Scenario.bitcoin])) Examples.abnormal_closure).
  - discriminate.
  - reflexivity.
  - reflexivity.
Defined.

Lemma fresh_consistent (s : CryptoState) : consistent (fresh s).
Proof.
  split.
  - intros i Hi. discriminate Hi.
  - intros j x Hj. simpl in Hj. by destruct j.
Qed.

Lemma closed_transport_is_silent_witness :
  step (host := Host.ascii) (socket_message 0 Scenario.frame)
    (session (host := Host.ascii) [call_start [Scenario.bitcoin]; call_stop]
       (fresh (Scenario.loaded [Scenario.bitcoin])))
  = session (host := Host.ascii) [call_start [Scenario.bitcoin]; call_stop]
      (fresh (Scenario.loaded [Scenario.bitcoin])).
Proof.
  destruct (closed_transport_is_silent (host := Host.ascii)
              [call_start [Scenario.bitcoin]; call_stop]
              (fresh (Scenario.loaded [Scenario.bitcoin])))
    as [_ Hsilent].
  - apply fresh_consistent.
  - apply (Hsilent 0%nat
             (mkWebSocket "wss://stream.binance.com:9443/stream?streams=btcusdt@ticker"
                false false false false (Some (1000, "Client called stop")))).
    + reflexivity.
    + eexists. reflexivity.
    + reflexivity.
Defined.

Lemma ticker_falsy_price_overwrites_witness :
  exists w' asset',
    handleMessage (host := Host.ascii) Examples.zero_price_frame Scenario.started
    = Normal w'
    /\ assets (store w') !! 0%nat = Some asset'
    /\ CryptoAsset.price asset' = 0%float
    /\ CryptoAsset.sparkline7d asset' = CryptoAsset.sparkline7d Scenario.bitcoin.
Proof.
  apply (ticker_falsy_price_overwrites (host := Host.ascii)
           Examples.zero_price_frame Scenario.started
           Examples.zero_price_message Examples.zero_price_payload
           "bitcoin" 0%float 1.5%float 1000%float 0%nat Scenario.bitcoin).
  - vm_compute. reflexivity.
  - exists [("data", Obj Examples.zero_price_payload)]. repeat split; reflexivity.
  - exists "BTCUSDT". split; [reflexivity | vm_compute; reflexivity].
  - discriminate.
  - vm_compute. reflexivity.
  - vm_compute. reflexivity.
  - vm_compute. reflexivity.
  - reflexivity.
  - split; [reflexivity|]. split; [reflexivity|]. intros j other Hj. lia.
Defined.

End SessionExamples.

(** * Properties of the snapshot *)

Section SnapshotFacts.

Import CryptoData.

Context {host : JS.Platform}.

Variable toFixed : Number.t -> Z -> string.

Implicit Types (baseAsset : BaseAsset) (fetched : Fetched).

Lemma or_else_again (x : option Number.t) (y : Number.t) :
  or_else (Some (or_else x y)) y = or_else x y.
Proof.
  unfold or_else. destruct x as [x'|].
  - destruct (Number.ToBoolean x') eqn:Hx; [by rewrite Hx|].
    by destruct (Number.ToBoolean y).
  - by destruct (Number.ToBoolean y).
Qed.

Lemma replicate_snoc {A : Type} (n : nat) (x : A) (l : list A) :
  replicate n x ++ x :: l = replicate (S n) x ++ l.
Proof. induction n as [|n IH]; simpl; [reflexivity|]. by rewrite IH. Qed.

(** With fuel for the missing elements the loop ends on its own
    condition: the list is padded in front, up to seven elements, with
    one value. *)
Lemma unshift_to_seven_pads fuel currentPrice (l : list Number.t) :
  (7 - length l <= fuel)%nat ->
  unshift_to_seven fuel currentPrice l
  = replicate (7 - length l) (padding currentPrice l) ++ l.
Proof.
  revert l. induction fuel as [|fuel IH]; intros l Hfuel; simpl.
  - destruct (length l <? 7)%nat eqn:Hlt.
    + apply Nat.ltb_lt in Hlt. lia.
    + apply Nat.ltb_ge in Hlt. by replace (7 - length l)%nat with 0%nat by lia.
  - destruct (length l <? 7)%nat eqn:Hlt.
    + apply Nat.ltb_lt in Hlt. rewrite IH by (simpl; lia).
      assert (padding currentPrice (or_else (head l) currentPrice :: l)
              = padding currentPrice l) as -> by apply or_else_again.
      fold (padding currentPrice l).
      rewrite replicate_snoc. f_equal. f_equal. simpl. lia.
    + apply Nat.ltb_ge in Hlt. by replace (7 - length l)%nat with 0%nat by lia.
Qed.

(** The function never answers [null], and the asset it builds carries
    the id, the name, the symbol and the supply of the base asset. *)
Lemma snapshot_base baseAsset fetched :
  exists asset,
    getCryptoAssetWithLiveData toFixed baseAsset fetched = Some asset
    /\ CryptoAsset.id asset = id baseAsset
    /\ CryptoAsset.name asset = name baseAsset
    /\ CryptoAsset.symbol asset = symbol baseAsset
    /\ CryptoAsset.circulatingSupply asset = circulatingSupply baseAsset
    /\ CryptoAsset.maxSupply asset = maxSupply baseAsset.
Proof.
  unfold getCryptoAssetWithLiveData.
  destruct (String.eqb (symbol baseAsset) "USDT"); [by eexists|].
  destruct (tickerData fetched) as [ticker|]; [|by eexists].
  match goal with
  | |- context [let '(a, b) := ?e in _] => destruct e as [pc sp]
  end.
  by eexists.
Qed.

(** X15.  The snapshot gives every asset a sparkline of exactly seven
    elements, as long as the request for eight daily klines was
    answered with eight at most: with the stable coin, with no ticker,
    with no kline at all, with a short history and with a full one. *)
Theorem snapshot_sparkline_has_seven baseAsset fetched :
  (forall klines, dailyKlines fetched = Some klines -> (length klines <= 8)%nat) ->
  exists asset,
    getCryptoAssetWithLiveData toFixed baseAsset fetched = Some asset
    /\ length (CryptoAsset.sparkline7d asset) = 7%nat.
Proof.
  intros Hlimit. unfold getCryptoAssetWithLiveData.
  destruct (String.eqb (symbol baseAsset) "USDT"); [by eexists|].
  destruct (tickerData fetched) as [ticker|]; [|by eexists].
  destruct (dailyKlines fetched) as [[|first rest]|] eqn:Hdaily;
    try (by eexists).
  specialize (Hlimit _ eq_refl).
  destruct (8 <=? length (first :: rest))%nat eqn:Hfull.
  - apply Nat.leb_le in Hfull. eexists. split; [reflexivity|].
    cbn [CryptoAsset.sparkline7d]. rewrite length_map. simpl in *. lia.
  - apply Nat.leb_gt in Hfull. eexists. split; [reflexivity|].
    cbn [CryptoAsset.sparkline7d].
    replace (length (first :: rest) - 7)%nat with 0%nat by (simpl in *; lia).
    rewrite drop_0.
    rewrite unshift_to_seven_pads by lia.
    rewrite length_app, length_replicate, length_map. simpl in *. lia.
Qed.

(** X16.  With a full answer of eight daily klines the sparkline is the
    closing prices of the last seven, oldest first: the first kline
    only serves the change over seven days. *)
Theorem snapshot_full_week baseAsset fetched ticker first rest :
  symbol baseAsset <> "USDT" ->
  tickerData fetched = Some ticker ->
  dailyKlines fetched = Some (first :: rest) ->
  length rest = 7%nat ->
  exists asset,
    getCryptoAssetWithLiveData toFixed baseAsset fetched = Some asset
    /\ CryptoAsset.sparkline7d asset = map close_of rest
    /\ CryptoAsset.price asset = JS.parseFloat_string (lastPrice ticker).
Proof.
  intros Hsym Hticker Hdaily Hlen. unfold getCryptoAssetWithLiveData.
  apply String.eqb_neq in Hsym. rewrite Hsym, Hticker, Hdaily.
  replace (8 <=? length (first :: rest))%nat with true
    by (symmetry; apply Nat.leb_le; simpl; lia).
  by eexists.
Qed.

(** X17.  With a shorter history, of one to seven daily klines, the
    sparkline ends with their closing prices and is padded in front,
    up to seven elements, with the oldest close, or with the current
    price when that close is zero or NaN. *)
Theorem snapshot_short_history baseAsset fetched ticker klines :
  symbol baseAsset <> "USDT" ->
  tickerData fetched = Some ticker ->
  dailyKlines fetched = Some klines ->
  (0 < length klines <= 7)%nat ->
  exists asset,
    getCryptoAssetWithLiveData toFixed baseAsset fetched = Some asset
    /\ CryptoAsset.sparkline7d asset
       = replicate (7 - length klines)
           (padding (JS.parseFloat_string (lastPrice ticker)) (map close_of klines))
         ++ map close_of klines.
Proof.
  intros Hsym Hticker Hdaily Hlen. unfold getCryptoAssetWithLiveData.
  apply String.eqb_neq in Hsym. rewrite Hsym, Hticker, Hdaily.
  destruct klines as [|first rest]; [simpl in Hlen; lia|].
  replace (8 <=? length (first :: rest))%nat with false
    by (symmetry; apply Nat.leb_gt; simpl in *; lia).
  eexists. split; [reflexivity|]. cbn [CryptoAsset.sparkline7d].
  replace (length (first :: rest) - 7)%nat with 0%nat by (simpl in *; lia).
  rewrite drop_0, unshift_to_seven_pads by (rewrite length_map; lia).
  by rewrite length_map.
Qed.

(** X18.  [getCryptoAssets] never loses an asset: whatever the requests
    returned, failures included, the list has the five base assets, in
    their order, under their ids and symbols. *)
Theorem getCryptoAssets_lists_every_base_asset (responses : BaseAsset -> Fetched) :
  CryptoAsset.id <$> getCryptoAssets toFixed responses = id <$> baseAssets
  /\ CryptoAsset.symbol <$> getCryptoAssets toFixed responses = symbol <$> baseAssets.
Proof.
  unfold getCryptoAssets, baseAssets. cbn [omap list_omap].
  repeat match goal with
  | |- context [getCryptoAssetWithLiveData toFixed ?b (responses ?b)] =>
      let a := fresh "a" in
      let Hs := fresh "Hs" in
      destruct (snapshot_base b (responses b)) as (a & Hs & ? & _ & ? & _);
      rewrite Hs; clear Hs
  end.
  simpl in *. split; congruence.
Qed.

End SnapshotFacts.

(** * The snapshot on the example answers *)

Section SnapshotWitnesses.

Import CryptoData.

Lemma snapshot_sparkline_has_seven_witness :
  exists asset,
    getCryptoAssetWithLiveData (host := Host.ascii) HostNumbers.toFixed
      SnapshotExamples.bitcoin SnapshotExamples.short = Some asset
    /\ length (CryptoAsset.sparkline7d asset) = 7%nat.
Proof.
  apply (snapshot_sparkline_has_seven (host := Host.ascii) HostNumbers.toFixed
           SnapshotExamples.bitcoin SnapshotExamples.short).
  intros klines Hklines. injection Hklines as <-. simpl. lia.
Defined.

Lemma snapshot_full_week_witness :
  exists asset,
    getCryptoAssetWithLiveData (host := Host.ascii) HostNumbers.toFixed
      SnapshotExamples.bitcoin SnapshotExamples.full = Some asset
    /\ CryptoAsset.sparkline7d asset
       = map (close_of (host := Host.ascii))
           [SnapshotExamples.kline "2"; SnapshotExamples.kline "3";
            SnapshotExamples.kline "4"; SnapshotExamples.kline "5";
            SnapshotExamples.kline "6"; SnapshotExamples.kline "7";
            SnapshotExamples.kline "8"]
    /\ CryptoAsset.price asset
       = JS.parseFloat_string (Platform := Host.ascii)
           (lastPrice SnapshotExamples.ticker).
Proof.
  apply (snapshot_full_week (host := Host.ascii) HostNumbers.toFixed
           SnapshotExamples.bitcoin SnapshotExamples.full SnapshotExamples.ticker
           (SnapshotExamples.kline "1")).
  - discriminate.
  - reflexivity.
  - reflexivity.
  - reflexivity.
Defined.

Lemma snapshot_short_history_witness :
  exists asset,
    getCryptoAssetWithLiveData (host := Host.ascii) HostNumbers.toFixed
      SnapshotExamples.bitcoin SnapshotExamples.short = Some asset
    /\ CryptoAsset.sparkline7d asset
       = replicate (7 - 3)
           (padding
              (JS.parseFloat_string (Platform := Host.ascii)
                 (lastPrice SnapshotExamples.ticker))
              (map (close_of (host := Host.ascii))
                 [SnapshotExamples.kline "0"; SnapshotExamples.kline "7";
                  SnapshotExamples.kline "8"]))
         ++ map (close_of (host := Host.ascii))
              [SnapshotExamples.kline "0"; SnapshotExamples.kline "7";
               SnapshotExamples.kline "8"].
Proof.
  apply (snapshot_short_history (host := Host.ascii) HostNumbers.toFixed
           SnapshotExamples.bitcoin SnapshotExamples.short SnapshotExamples.ticker
           [SnapshotExamples.kline "0"; SnapshotExamples.kline "7";
            SnapshotExamples.kline "8"]).
  - discriminate.
  - reflexivity.
  - reflexivity.
  - simpl. lia.
Defined.

(** The three answers, computed: a full week, a short history padded
    with the current price, and the zeros of a failed ticker request. *)
Lemma snapshot_computed :
  (CryptoAsset.sparkline7d <$>
     getCryptoAssetWithLiveData (host := Host.ascii) HostNumbers.toFixed
       SnapshotExamples.bitcoin SnapshotExamples.full)
  = Some [2; 3; 4; 5; 6; 7; 8]%float
  /\ (CryptoAsset.percentChange1h <$>
        getCryptoAssetWithLiveData (host := Host.ascii) HostNumbers.toFixed
          SnapshotExamples.bitcoin SnapshotExamples.full)
     = Some 60%float
  /\ (CryptoAsset.percentChange7d <$>
        getCryptoAssetWithLiveData (host := Host.ascii) HostNumbers.toFixed
          SnapshotExamples.bitcoin SnapshotExamples.full)
     = Some 700%float
  /\ (CryptoAsset.sparkline7d <$>
        getCryptoAssetWithLiveData (host := Host.ascii) HostNumbers.toFixed
          SnapshotExamples.bitcoin SnapshotExamples.short)
     = Some [8; 8; 8; 8; 0; 7; 8]%float
  /\ (CryptoAsset.sparkline7d <$>
        getCryptoAssetWithLiveData (host := Host.ascii) HostNumbers.toFixed
          SnapshotExamples.bitcoin SnapshotExamples.nothing)
     = Some [0; 0; 0; 0; 0; 0; 0]%float.
Proof. repeat split; vm_compute; reflexivity. Qed.

End SnapshotWitnesses.

(** * Properties of the table: sorting state and rows *)

Section TableFacts.

Import CryptoTable.

Lemma SortField_eqb_eq (a b : SortField) : SortField_eqb a b = true <-> a = b.
Proof. destruct a, b; simpl; split; congruence. Qed.

(** X19.  Clicking a column shows it; clicking the column that is shown
    twice gives the direction back, and clicking another column twice
    ends on it in ascending order. *)
Theorem handleSort_twice (field : SortField) (st : SortState) :
  sortField (handleSort field st) = field
  /\ handleSort field (handleSort field st)
     = mkSortState field
         (if SortField_eqb (sortField st) field then sortDirection st else asc).
Proof.
  unfold handleSort.
  destruct (SortField_eqb (sortField st) field) eqn:Hsame; simpl.
  - apply SortField_eqb_eq in Hsame. rewrite Hsame.
    replace (SortField_eqb field field) with true
      by (symmetry; by apply SortField_eqb_eq).
    split; [reflexivity|]. by destruct (sortDirection st).
  - replace (SortField_eqb field field) with true
      by (symmetry; by apply SortField_eqb_eq).
    by split.
Qed.

Lemma SFcompare_antisym (x y : spec_float) :
  SFcompare y x = CompOpp <$> SFcompare x y.
Proof.
  destruct x as [sx | sx | | sx mx ex], y as [sy | sy | | sy my ey]; simpl;
    try reflexivity;
    try (by destruct sx); try (by destruct sy); try (by destruct sx, sy).
  assert (Pos.compare_cont Eq my mx = CompOpp (Pos.compare_cont Eq mx my)) as Hm
    by (rewrite Pos.compare_cont_antisym; reflexivity).
  destruct sx, sy; simpl; try reflexivity.
  - rewrite (Z.compare_antisym ey ex).
    destruct (ey ?= ex)%Z; simpl; try reflexivity.
    by rewrite Hm.
  - rewrite (Z.compare_antisym ey ex).
    destruct (ey ?= ex)%Z; simpl; try reflexivity.
    by rewrite Hm.
Qed.

Lemma ltb_asym (x y : Number.t) :
  PrimFloat.ltb x y = true -> PrimFloat.ltb y x = false.
Proof.
  rewrite !ltb_spec. unfold SFltb. rewrite (SFcompare_antisym (Prim2SF x) (Prim2SF y)).
  destruct (SFcompare (Prim2SF x) (Prim2SF y)) as [[]|]; simpl; congruence.
Qed.

Lemma falsy_not_ordered (x : Number.t) :
  Number.ToBoolean x = false ->
  PrimFloat.ltb 0%float x = false /\ PrimFloat.ltb x 0%float = false.
Proof.
  unfold Number.ToBoolean, PrimFloat.is_zero, PrimFloat.is_nan.
  rewrite !ltb_spec, !FloatAxioms.eqb_spec. unfold SFltb, SFeqb.
  change (Prim2SF PrimFloat.zero) with (S754_zero false).
  change (Prim2SF 0%float) with (S754_zero false).
  destruct (Prim2SF x) as [s | s | | s m e]; simpl; try (by destruct s).
  - auto.
  - destruct s; simpl.
    + rewrite Z.compare_refl.
      rewrite Pos.compare_cont_refl. simpl. discriminate.
    + rewrite Z.compare_refl.
      rewrite Pos.compare_cont_refl. simpl. discriminate.
Qed.

(** X20.  No asset is both a gainer and a loser, and an asset whose change
    over 24 hours is zero or NaN is neither: under these two filters
    it is not shown. *)
Theorem gainers_and_losers_exclusive (asset : CryptoAsset.t) :
  (in_category gainers asset = true -> in_category losers asset = false)
  /\ (Number.ToBoolean (CryptoAsset.percentChange24h asset) = false ->
      in_category gainers asset = false /\ in_category losers asset = false).
Proof.
  split.
  - apply ltb_asym.
  - apply falsy_not_ordered.
Qed.

(** X21.  Descending order is ascending order with the two rows exchanged,
    whatever the values, NaN included. *)
Theorem comparator_desc_reverses_asc (field : SortField) (a b : CryptoAsset.t) :
  comparator field desc a b = comparator field asc b a.
Proof.
  unfold comparator. cbv zeta.
  destruct (PrimFloat.ltb (field_of field b) (field_of field a)) eqn:Hba.
  - by rewrite (ltb_asym _ _ Hba).
  - by destruct (PrimFloat.ltb (field_of field a) (field_of field b)).
Qed.

End TableFacts.

Section RowsFacts.

Import CryptoTable.

Context {host : JS.Platform}.

Variable sort :
  (CryptoAsset.t -> CryptoAsset.t -> Z) -> list CryptoAsset.t -> list CryptoAsset.t.

(** What every engine does, and what ECMAScript promises when the
    function is a consistent comparator: [sort] rearranges. *)
Hypothesis sort_permutes : forall cmp l, sort cmp l ≡ₚ l.

Lemma filter_submseteq {A : Type} (f : A -> bool) (l : list A) :
  List.filter f l ⊆+ l.
Proof.
  induction l as [|x rest IH]; simpl; [constructor|].
  destruct (f x); [by apply submseteq_skip | by apply submseteq_cons].
Qed.

Lemma filter_elem {A : Type} (f : A -> bool) (l : list A) (x : A) :
  x ∈ List.filter f l -> f x = true.
Proof.
  intros Hin. apply list_elem_of_In, filter_In in Hin. apply Hin.
Qed.

(** X22.  The rows of the table come from the store: no asset is shown that
    the store does not hold, none more often than the store holds it,
    and every row passes the category and, when the search box is not
    empty, the search. *)
Theorem rows_come_from_the_store (assets : list CryptoAsset.t)
    (filterOption : FilterOption) (searchQuery : string) (st : SortState) :
  filteredAndSortedAssets sort assets filterOption searchQuery st ⊆+ assets
  /\ forall asset,
       asset ∈ filteredAndSortedAssets sort assets filterOption searchQuery st ->
       in_category filterOption asset = true
       /\ (searchQuery <> "" -> matches_search searchQuery asset = true).
Proof.
  unfold filteredAndSortedAssets. cbv zeta.
  set (chosen := match filterOption with
                 | all => assets
                 | _ => List.filter (in_category filterOption) assets
                 end).
  set (found := if negb (String.eqb searchQuery "")
                then List.filter (matches_search searchQuery) chosen
                else chosen).
  assert (chosen ⊆+ assets) as Hchosen
    by (subst chosen; destruct filterOption; try reflexivity; apply filter_submseteq).
  assert (found ⊆+ chosen) as Hfound
    by (subst found; destruct (negb (String.eqb searchQuery ""));
        [apply filter_submseteq | reflexivity]).
  split.
  - rewrite (sort_permutes _ found). by etransitivity.
  - intros asset Hin. rewrite (sort_permutes _ found) in Hin. split.
    + assert (asset ∈ chosen) as Hc by (by apply (elem_of_submseteq found)).
      subst chosen. destruct filterOption; try reflexivity;
        by apply (filter_elem _ assets).
    + intros Hq. apply String.eqb_neq in Hq. subst found. rewrite Hq in Hin.
      simpl in Hin. by apply (filter_elem _ chosen).
Qed.

(** With the category [all] and an empty search box nothing is hidden:
    the rows are the assets of the store, rearranged. *)
Theorem rows_hide_nothing (assets : list CryptoAsset.t) (st : SortState) :
  filteredAndSortedAssets sort assets all "" st ≡ₚ assets.
Proof. unfold filteredAndSortedAssets. simpl. apply sort_permutes. Qed.

End RowsFacts.

Section RowsWitnesses.

Import CryptoTable.

Lemma insert_sorted_permutes {A : Type} (cmp : A -> A -> Z) (x : A) (l : list A) :
  insert_sorted cmp x l ≡ₚ x :: l.
Proof.
  induction l as [|y rest IH]; simpl; [reflexivity|].
  destruct (0 <? cmp x y); [|reflexivity].
  rewrite IH. apply Permutation_swap.
Qed.

Lemma insertion_sort_permutes {A : Type} (cmp : A -> A -> Z) (l : list A) :
  insertion_sort cmp l ≡ₚ l.
Proof.
  induction l as [|x rest IH]; simpl; [reflexivity|].
  unfold insertion_sort in *. simpl. rewrite insert_sorted_permutes. by rewrite IH.
Qed.

Lemma rows_come_from_the_store_witness :
  filteredAndSortedAssets (host := Host.ascii) insertion_sort
    [Scenario.bitcoin; Scenario.ethereum] all "bit" initialSort
  ⊆+ [Scenario.bitcoin; Scenario.ethereum].
Proof.
  destruct (rows_come_from_the_store (host := Host.ascii) insertion_sort
              (@insertion_sort_permutes CryptoAsset.t)
              [Scenario.bitcoin; Scenario.ethereum] all "bit" initialSort)
    as [Hsub _].
  exact Hsub.
Defined.

Lemma rows_hide_nothing_witness :
  filteredAndSortedAssets (host := Host.ascii) insertion_sort
    [Scenario.bitcoin; Scenario.ethereum] all "" initialSort
  ≡ₚ [Scenario.bitcoin; Scenario.ethereum].
Proof.
  apply (rows_hide_nothing (host := Host.ascii) insertion_sort
           (@insertion_sort_permutes CryptoAsset.t)).
Defined.

(** The rows of the example, computed: by market capitalisation, the
    larger first, and the search for [bit] alone. *)
Lemma rows_computed :
  CryptoAsset.id <$>
    filteredAndSortedAssets (host := Host.ascii) insertion_sort
      [Scenario.bitcoin; Scenario.ethereum] all "" initialSort
  = ["ethereum"; "bitcoin"]
  /\ CryptoAsset.id <$>
       filteredAndSortedAssets (host := Host.ascii) insertion_sort
         [Scenario.bitcoin; Scenario.ethereum] all "BIT" initialSort
     = ["bitcoin"].
Proof. split; vm_compute; reflexivity. Qed.

End RowsWitnesses.

(** * From the snapshot to the registry *)

Section SnapshotRegistry.

Import JS MockSocket CryptoData.

Lemma registry_of_pairs {host : Platform} (m : gmap string string)
    (l l' : list CryptoAsset.t) :
  (fun a => (CryptoAsset.symbol a, CryptoAsset.id a)) <$> l
  = (fun a => (CryptoAsset.symbol a, CryptoAsset.id a)) <$> l' ->
  foldl register m l = foldl register m l'.
Proof.
  revert m l'. induction l as [|a rest IH]; intros m [|a' rest'] Heq;
    try discriminate; [reflexivity|].
  simpl in Heq. injection Heq as Hs Hi Hrest. simpl.
  rewrite (IH _ rest' Hrest). unfold register. by rewrite Hs, Hi.
Qed.

Lemma getCryptoAssets_pairs {host : Platform} (toFixed : Number.t -> Z -> string)
    (responses : BaseAsset -> Fetched) :
  (fun a => (CryptoAsset.symbol a, CryptoAsset.id a))
    <$> getCryptoAssets toFixed responses
  = (fun b => (symbol b, id b)) <$> baseAssets.
Proof.
  unfold getCryptoAssets, baseAssets. cbn [omap list_omap].
  repeat match goal with
  | |- context [getCryptoAssetWithLiveData toFixed ?b (responses ?b)] =>
      let a := fresh "a" in
      let Hs := fresh "Hs" in
      destruct (snapshot_base toFixed b (responses b)) as (a & Hs & ? & _ & ? & _);
      rewrite Hs; clear Hs
  end.
  simpl in *. congruence.
Qed.

(** X23.  Every asset of the snapshot can be reached from the feed:
    whatever the requests returned, once the service is started on
    the list of [getCryptoAssets], the pair symbol of each base asset,
    in upper case as the exchange sends it or in lower case, resolves
    to the id of that asset. *)
Theorem snapshot_assets_resolve (toFixed : Number.t -> Z -> string)
    (responses : BaseAsset -> Fetched) (w : World) :
  Forall (fun b =>
            mapBinanceSymbolToAssetId (host := Host.ascii)
              (Some (Str (symbol b +:+ "USDT")))
              (start (host := Host.ascii)
                 (getCryptoAssets (host := Host.ascii) toFixed responses) w)
            = Normal (Some (id b))
            /\ mapBinanceSymbolToAssetId (host := Host.ascii)
                 (Some (Str (toLowerCase (Platform := Host.ascii) (symbol b) +:+ "usdt")))
                 (start (host := Host.ascii)
                    (getCryptoAssets (host := Host.ascii) toFixed responses) w)
               = Normal (Some (id b)))
         baseAssets.
Proof.
  pose proof (getCryptoAssets_pairs (host := Host.ascii) toFixed responses) as Hpairs.
  assert (getCryptoAssets (host := Host.ascii) toFixed responses <> []) as Hne.
  { intros Hnil. rewrite Hnil in Hpairs. discriminate Hpairs. }
  unfold mapBinanceSymbolToAssetId.
  rewrite (start_registry (host := Host.ascii) _ w Hne).
  rewrite (registry_of_pairs (host := Host.ascii) ∅ _ (SnapshotExamples.relabelled Scenario.bitcoin))
    by (rewrite Hpairs; reflexivity).
  repeat constructor; vm_compute; reflexivity.
Qed.

End SnapshotRegistry.
